(** * Depression-severity inference service: a verified model of [ml_services.py]

    The development embeds the scoring and fallback logic of [MLService]
    (PHQ-9 scoring, journal-text analysis, rule-based estimation and the two
    recommendation tables) and proves the properties its specification
    states about them.

    Modelling conventions
    - a Python [int] is a [Z]; a Python [float] is an IEEE-754 binary64
      number, i.e. a primitive [float], compared with [PrimFloat.leb] and
      [PrimFloat.ltb] ([a >= b] is [b <= a], a comparison with NaN is false);
    - a Python [str] that is only compared and stored (labels, messages,
      dictionary keys) is a [string]; a text whose characters are inspected
      ([strip], [split], [len]) is a list of Unicode code points;
    - a result dictionary is a [gmap string pyval]: [d.update(e)] is [e ∪ d]
      and ["k" in d] is [is_Some (d !! "k")];
    - a call that can raise returns a [result]; code that calls the loaded
      models runs in the monad [M], which also records every call to a model
      and every logged error, in order. *)

From Stdlib Require Import ZArith List String Floats Lia.
From stdpp Require Import gmap strings list pretty.

Set Warnings "-inexact-float".

Local Open Scope string_scope.
Local Open Scope list_scope.
Local Open Scope Z_scope.

(** ** Python values *)

(** The four VADER scores, the dictionary
    [{"positive": _, "negative": _, "neutral": _, "compound": _}]. *)
Record VaderScores := mkScores {
  positive : float;
  negative : float;
  neutral : float;
  compound : float
}.

(** The values stored in the result dictionaries. *)
Inductive pyval :=
| PInt (z : Z)
| PFloat (x : float)
| PStr (s : string)
| PStrs (l : list string)
| PFloats (l : list float)
| PScores (v : VaderScores).

(** A dictionary literal. *)
Definition py_dict (items : list (string * pyval)) : gmap string pyval :=
  list_to_map items.

(** [d.update(e)]: the keys of [e] override those of [d]. *)
Definition py_update (d e : gmap string pyval) : gmap string pyval := e ∪ d.

(** ["k" in d] *)
Definition py_in (k : string) (d : gmap string pyval) : bool :=
  match d !! k with Some _ => true | None => false end.

(** A computation that returns a value or raises an [Exception] carrying
    the message [str(e)]. *)
Inductive result (A : Type) :=
| Ok (a : A)
| Raise (msg : string).
Arguments Ok {A} a.
Arguments Raise {A} msg.

(** ** PHQ-9 questionnaire *)

(** Python's [sum(responses)]: a left fold that starts at 0. *)
Definition py_sum (l : list Z) : Z := fold_left Z.add l 0.

Definition urgent_advisory : string :=
  "⚠️ Consider immediate professional support".

Definition phq9_minimal : list string :=
  [ "Continue maintaining good mental health habits";
    "Practice regular self-care activities";
    "Stay connected with supportive people";
    "Consider journaling to track your mood" ].

Definition phq9_mild : list string :=
  [ "Consider talking to a counselor or therapist";
    "Engage in regular physical activity";
    "Practice stress management techniques";
    "Maintain a regular sleep schedule";
    "Connect with friends and family" ].

Definition phq9_moderate : list string :=
  [ "Strongly consider professional counseling";
    "Discuss your symptoms with a healthcare provider";
    "Consider mindfulness or meditation practices";
    "Maintain social connections";
    "Avoid alcohol and substance use" ].

Definition phq9_severe : list string :=
  [ "Seek immediate professional help";
    "Contact your healthcare provider";
    "Consider medication evaluation";
    "Inform trusted friends or family about your situation";
    "Remove access to means of self-harm" ].

(** The [if]/[elif] chain of [_get_phq9_recommendations] on [severity]. *)
Definition phq9_base (severity : string) : list string :=
  if String.eqb severity "Minimal" then phq9_minimal
  else if String.eqb severity "Mild" then phq9_mild
  else if String.eqb severity "Moderate" then phq9_moderate
  else phq9_severe.

(** [MLService._get_phq9_recommendations] *)
Definition _get_phq9_recommendations (severity : string) (score : Z)
  : list string :=
  let recommendations := phq9_base severity in
  if 15 <=? score then urgent_advisory :: recommendations
  else recommendations.

(** The severity band and its description, lines 173-187. *)
Definition phq9_severity (total_score : Z) : string * string :=
  if total_score <=? 4 then ("Minimal", "Minimal or no depression")
  else if total_score <=? 9 then ("Mild", "Mild depression")
  else if total_score <=? 14 then ("Moderate", "Moderate depression")
  else if total_score <=? 19 then
    ("Moderately Severe", "Moderately severe depression")
  else ("Severe", "Severe depression").

(** [MLService.analyze_phq9] *)
Definition analyze_phq9 (responses : list Z) : result (gmap string pyval) :=
  if negb (length responses =? 9)%nat then
    Raise "PHQ-9 requires exactly 9 responses"
  else
    let total_score := py_sum responses in
    let '(severity, description) := phq9_severity total_score in
    let recommendations := _get_phq9_recommendations severity total_score in
    Ok (py_dict
          [ ("total_score", PInt total_score);
            ("max_score", PInt 27);
            ("severity", PStr severity);
            ("description", PStr description);
            ("recommendations", PStrs recommendations);
            ("analysis_type", PStr "PHQ-9") ]).

(** ** Text *)

(** A text is the list of its Unicode code points. *)
Abbreviation pystr := (list N).

(** The code points [str.strip()] and [str.split()] treat as white space
    ([str.isspace]). *)
Definition is_space (c : N) : bool :=
  ((9 <=? c) && (c <=? 13) || (28 <=? c) && (c <=? 32)
   || (c =? 133) || (c =? 160) || (c =? 5760)
   || (8192 <=? c) && (c <=? 8202)
   || (c =? 8232) || (c =? 8233) || (c =? 8239) || (c =? 8287)
   || (c =? 12288))%N.

Fixpoint lstrip (t : pystr) : pystr :=
  match t with
  | c :: t' => if is_space c then lstrip t' else t
  | [] => []
  end.

(** [text.strip()] *)
Definition strip (t : pystr) : pystr := rev (lstrip (rev (lstrip t))).

(** [text.split()]: the maximal runs of characters that are not white
    space; [cur] is the run being read, last character first. *)
Fixpoint split_from (cur : pystr) (t : pystr) : list pystr :=
  match t with
  | [] => match cur with [] => [] | _ => [rev cur] end
  | c :: t' =>
      if is_space c then
        match cur with
        | [] => split_from [] t'
        | _ => rev cur :: split_from [] t'
        end
      else split_from (c :: cur) t'
  end.

Definition split (t : pystr) : list pystr := split_from [] t.

(** [' '.join(words)] *)
Definition join_space (words : list pystr) : pystr :=
  match words with
  | [] => []
  | w :: rest => w ++ flat_map (fun w' => 32%N :: w') rest
  end.

(** The code points of a string of ASCII characters. *)
Definition text_of (s : string) : pystr :=
  map Ascii.N_of_ascii (list_ascii_of_string s).

(** ** Effects: raised exceptions and the calls made to the models *)

(** What a run does outside itself, in order: every call of a loaded model
    with its argument, and every [logger.error]. *)
Inductive event :=
| CallPolarityScores (text : pystr)
| CallTokenizer (text : pystr)
| CallBert (inputs : list Z)
| CallScalerTransform (features : list float)
| CallPredict (features : list float)
| CallPredictProba (features : list float)
| LogError (msg : string).

(** A computation returns or raises, and leaves the trace of its events. *)
Definition M (A : Type) : Type := result A * list event.

Definition ret {A} (a : A) : M A := (Ok a, []).

Definition bind {A B} (m : M A) (k : A -> M B) : M B :=
  match m with
  | (Ok a, tr) => let '(r, tr') := k a in (r, tr ++ tr')
  | (Raise msg, tr) => (Raise msg, tr)
  end.

(** [try: body / except Exception as e: handler(str(e))] *)
Definition try_except {A} (body : M A) (handler : string -> M A) : M A :=
  match body with
  | (Ok a, tr) => (Ok a, tr)
  | (Raise msg, tr) => let '(r, tr') := handler msg in (r, tr ++ tr')
  end.

(** A call of a model: the event, then whatever the model returns or raises. *)
Definition call {A} (ev : event) (outcome : result A) : M A := (outcome, [ev]).

Definition log_error (msg : string) : M unit := (Ok tt, [LogError msg]).

Definition raise {A} (msg : string) : M A := (Raise msg, []).

Notation "'let*' x ':=' m 'in' k" := (bind m (fun x => k))
  (at level 10, x name, m at level 100, k at level 200,
   format "'[v' 'let*'  x  ':='  m  'in' '/' k ']'").

(** ** The service object *)

(** What [vader_analyzer.polarity_scores] returns: the dictionary with the
    keys ["pos"], ["neg"], ["neu"] and ["compound"]. *)
Record Polarity := mkPolarity {
  pos : float;
  neg : float;
  neu : float;
  compound_score : float
}.

(** The loaded classifier: [predict(x)[0]] and [predict_proba(x)[0].max()]. *)
Record Classifier := mkClassifier {
  predict : list float -> result Z;
  predict_proba_max : list float -> result float
}.

(** The attributes of [MLService] set by [_load_models]; an attribute that
    is [None] in Python is [None] here. A loaded model is the function it
    computes, which may raise. *)
Record MLService := mkService {
  bert_model : option (list Z -> result (list float));
  bert_tokenizer : option (pystr -> result (list Z));
  vader_analyzer : option (pystr -> result Polarity);
  scaler : option (list float -> result (list float));
  classifier : option Classifier;
  model_loaded : bool
}.

(** [all([...])] in the last assignment of [_load_models], lines 90-95. *)
Definition all_models_present (svc : MLService) : bool :=
  match bert_model svc, vader_analyzer svc, scaler svc, classifier svc with
  | Some _, Some _, Some _, Some _ => true
  | _, _, _, _ => false
  end.

(** What [_load_models] finds when the process starts: whether the ML
    libraries were imported (lines 10-26), which files exist under
    [models/], and what each loading call returns or raises. *)
Record StartUp := mkStartUp {
  ml_libraries : bool;
  bert_dir_exists : bool;
  tokenizer_from_pretrained : result (pystr -> result (list Z));
  bert_from_pretrained : result (list Z -> result (list float));
  new_vader_analyzer : result (pystr -> result Polarity);
  scaler_file_exists : bool;
  load_scaler : result (list float -> result (list float));
  classifier_file_exists : bool;
  load_classifier : result Classifier
}.

(** A statement of the [try] of [_load_models]: it updates the attributes
    of [self], and may raise after having updated some of them. *)
Definition Loader : Type := MLService -> MLService * option string.

Definition and_then (first second : Loader) : Loader :=
  fun self =>
    match first self with
    | (self, None) => second self
    | (self, Some msg) => (self, Some msg)
    end.

Definition skip : Loader := fun self => (self, None).

(** [self.attr = load(...)]: the attribute is assigned when the call
    returns. *)
Definition assign {A} (loaded : result A) (set : A -> MLService -> MLService)
  : Loader :=
  fun self =>
    match loaded with
    | Ok a => (set a self, None)
    | Raise msg => (self, Some msg)
    end.

Definition set_bert_tokenizer (t : pystr -> result (list Z))
  (self : MLService) : MLService :=
  mkService (bert_model self) (Some t) (vader_analyzer self) (scaler self)
    (classifier self) (model_loaded self).

Definition set_bert_model (m : list Z -> result (list float))
  (self : MLService) : MLService :=
  mkService (Some m) (bert_tokenizer self) (vader_analyzer self)
    (scaler self) (classifier self) (model_loaded self).

Definition set_vader_analyzer (v : pystr -> result Polarity)
  (self : MLService) : MLService :=
  mkService (bert_model self) (bert_tokenizer self) (Some v) (scaler self)
    (classifier self) (model_loaded self).

Definition set_scaler (f : list float -> result (list float))
  (self : MLService) : MLService :=
  mkService (bert_model self) (bert_tokenizer self) (vader_analyzer self)
    (Some f) (classifier self) (model_loaded self).

Definition set_classifier (c : Classifier) (self : MLService) : MLService :=
  mkService (bert_model self) (bert_tokenizer self) (vader_analyzer self)
    (scaler self) (Some c) (model_loaded self).

Definition set_model_loaded (b : bool) (self : MLService) : MLService :=
  mkService (bert_model self) (bert_tokenizer self) (vader_analyzer self)
    (scaler self) (classifier self) b.

(** [MLService._load_models] (its log messages are left out). *)
Definition _load_models (env : StartUp) (self : MLService) : MLService :=
  let body : Loader :=
    and_then
      (if ml_libraries env && bert_dir_exists env then
         and_then (assign (tokenizer_from_pretrained env) set_bert_tokenizer)
                  (assign (bert_from_pretrained env) set_bert_model)
       else skip)
    (and_then
      (if ml_libraries env then
         assign (new_vader_analyzer env) set_vader_analyzer
       else skip)
    (and_then
      (if ml_libraries env && scaler_file_exists env then
         assign (load_scaler env) set_scaler
       else skip)
    (and_then
      (if ml_libraries env && classifier_file_exists env then
         assign (load_classifier env) set_classifier
       else skip)
      (fun self => (set_model_loaded (all_models_present self) self, None)))))
  in
  match body self with
  | (self, None) => self
  | (self, Some _) => set_model_loaded false self
  end.

(** [MLService.__init__] *)
Definition MLService_init (env : StartUp) : MLService :=
  _load_models env (mkService None None None None None false).

(** ** Journal recommendations and the rule-based estimator *)

Definition journal_minimal : list string :=
  [ "Continue expressing your thoughts through writing";
    "Practice gratitude journaling";
    "Celebrate small victories";
    "Maintain healthy routines" ].

Definition journal_mild : list string :=
  [ "Continue regular journaling";
    "Focus on positive coping strategies";
    "Consider talking to someone you trust";
    "Practice self-compassion" ].

Definition journal_moderate : list string :=
  [ "Consider professional support";
    "Use journaling to identify patterns";
    "Practice mindfulness techniques";
    "Maintain social connections" ].

Definition journal_severe : list string :=
  [ "Seek professional help immediately";
    "Share your concerns with trusted people";
    "Use journaling as a tool with professional guidance";
    "Focus on safety and self-care" ].

Definition challenge_advisory : string :=
  "Consider challenging negative thought patterns".

Definition pleasant_advisory : string :=
  "Try to identify and engage in pleasant activities".

(** The [if]/[elif] chain of [_get_journal_recommendations] on [severity]. *)
Definition journal_base (severity : string) : list string :=
  if String.eqb severity "Minimal" then journal_minimal
  else if String.eqb severity "Mild" then journal_mild
  else if String.eqb severity "Moderate" then journal_moderate
  else journal_severe.

(** [MLService._get_journal_recommendations] *)
Definition _get_journal_recommendations (severity : string)
  (vader_scores : VaderScores) : list string :=
  let recommendations := journal_base severity in
  let recommendations :=
    if PrimFloat.ltb 0.3%float (negative vader_scores)
    then recommendations ++ [challenge_advisory] else recommendations in
  let recommendations :=
    if PrimFloat.ltb (positive vader_scores) 0.1%float
    then recommendations ++ [pleasant_advisory] else recommendations in
  recommendations.

(** The thresholds of [_fallback_analysis], lines 274-279. *)
Definition fallback_severity (vader_scores : VaderScores) : string :=
  let compound := compound vader_scores in
  let negative := negative vader_scores in
  if PrimFloat.leb compound (-0.5)%float || PrimFloat.leb 0.4%float negative
  then "Moderate"
  else if PrimFloat.leb compound (-0.2)%float
          || PrimFloat.leb 0.2%float negative
  then "Mild"
  else "Minimal".

(** [MLService._fallback_analysis] *)
Definition _fallback_analysis (vader_scores : VaderScores)
  : gmap string pyval :=
  let severity := fallback_severity vader_scores in
  py_dict
    [ ("predicted_severity", PStr severity);
      ("confidence", PFloat 0.7%float);
      ("method", PStr "rule_based");
      ("recommendations",
        PStrs (_get_journal_recommendations severity vader_scores)) ].

(** The dictionary [severity_map] of [analyze_journal_text]. *)
Definition severity_map : gmap Z string :=
  list_to_map [ (0, "Minimal"); (1, "Mild"); (2, "Moderate"); (3, "Severe") ].

(** [severity_map.get(prediction, "Unknown")] *)
Definition predicted_label (prediction : Z) : string :=
  default "Unknown" (severity_map !! prediction).

Definition zero_scores : VaderScores :=
  mkScores 0%float 0%float 0%float 0%float.

(** The dictionary [results] as [analyze_journal_text] initialises it,
    lines 213-218. *)
Definition initial_results (text : pystr) (vader_scores : VaderScores)
  : gmap string pyval :=
  py_dict [ ("text_length", PInt (Z.of_nat (length text)));
            ("word_count", PInt (Z.of_nat (length (split text))));
            ("vader_scores", PScores vader_scores);
            ("analysis_type", PStr "Journal") ].

(** The dictionary returned for a text that is too short, lines 204-207. *)
Definition too_short_error : gmap string pyval :=
  py_dict [ ("error", PStr "Text too short for analysis");
            ("analysis_type", PStr "Journal") ].

(** ** Journal analysis *)

Section Journal.

(** Python's [str.lower], whose Unicode case table is not part of the
    repository. *)
Variable py_lower : pystr -> pystr.

Variable svc : MLService.

(** [MLService.preprocess_text] *)
Definition preprocess_text (text : pystr) : pystr :=
  match text with
  | [] => []
  | _ =>
      let text := strip (py_lower text) in
      join_space (split text)
  end.

(** The body of the [try] of [get_bert_embedding], lines 123-140. *)
Definition extract_embedding (model : list Z -> result (list float))
  (tokenizer : pystr -> result (list Z)) (text : pystr) : M (list float) :=
  let processed_text := preprocess_text text in
  let* inputs := call (CallTokenizer processed_text)
                      (tokenizer processed_text) in
  let* cls_embedding := call (CallBert inputs) (model inputs) in
  ret cls_embedding.

(** [MLService.get_bert_embedding] *)
Definition get_bert_embedding (text : pystr) : M (option (list float)) :=
  match bert_model svc, bert_tokenizer svc with
  | Some model, Some tokenizer =>
      try_except
        (let* cls_embedding := extract_embedding model tokenizer text in
         ret (Some cls_embedding))
        (fun e =>
           let* _ := log_error ("Error getting BERT embedding: " +:+ e) in
           ret None)
  | _, _ => ret None
  end.

(** [MLService.get_vader_scores] *)
Definition get_vader_scores (text : pystr) : M VaderScores :=
  match vader_analyzer svc with
  | None => ret zero_scores
  | Some polarity_scores =>
      try_except
        (let processed_text := preprocess_text text in
         let* scores := call (CallPolarityScores processed_text)
                             (polarity_scores processed_text) in
         ret (mkScores (pos scores) (neg scores) (neu scores)
                       (compound_score scores)))
        (fun e =>
           let* _ := log_error ("Error getting VADER scores: " +:+ e) in
           ret zero_scores)
  end.

(** The body of the [try] of [analyze_journal_text], lines 223-256: the
    dictionary [results] after it, when nothing raises. *)
Definition ml_analysis (text : pystr) (vader_scores : VaderScores)
  (results : gmap string pyval) : M (gmap string pyval) :=
  let* bert_embedding := get_bert_embedding text in
  match bert_embedding with
  | Some bert_embedding =>
      let vader_features :=
        [ positive vader_scores; negative vader_scores;
          neutral vader_scores; compound vader_scores ] in
      let combined_features := bert_embedding ++ vader_features in
      let* scaled_features :=
        match scaler svc with
        | Some transform =>
            call (CallScalerTransform combined_features)
                 (transform combined_features)
        | None => raise "'NoneType' object has no attribute 'transform'"
        end in
      let* prediction :=
        match classifier svc with
        | Some clf => call (CallPredict scaled_features)
                           (predict clf scaled_features)
        | None => raise "'NoneType' object has no attribute 'predict'"
        end in
      let* confidence :=
        match classifier svc with
        | Some clf => call (CallPredictProba scaled_features)
                           (predict_proba_max clf scaled_features)
        | None => raise "'NoneType' object has no attribute 'predict_proba'"
        end in
      let predicted_severity := predicted_label prediction in
      ret (py_update results
             (py_dict
                [ ("ml_prediction", PInt prediction);
                  ("predicted_severity", PStr predicted_severity);
                  ("confidence", PFloat confidence);
                  ("bert_embedding", PFloats bert_embedding);
                  ("recommendations",
                    PStrs (_get_journal_recommendations predicted_severity
                             vader_scores)) ]))
  | None => ret results
  end.

(** [MLService.analyze_journal_text] *)
Definition analyze_journal_text (text : pystr) : M (gmap string pyval) :=
  if match text with [] => true | _ => false end
     || (length (strip text) <? 10)%nat
  then
    ret too_short_error
  else
    let* vader_scores := get_vader_scores text in
    let results := initial_results text vader_scores in
    let* results :=
      if model_loaded svc then
        try_except
          (ml_analysis text vader_scores results)
          (fun e =>
             let* _ := log_error ("Error in ML analysis: " +:+ e) in
             ret (<["ml_error" := PStr e]> results))
      else ret results in
    if negb (py_in "predicted_severity" results) then
      ret (py_update results (_fallback_analysis vader_scores))
    else ret results.

End Journal.

(** ** Statements about the questionnaire *)

(** A response outside the scale [0..3]. *)
Definition out_of_scale (r : Z) : Prop := r < 0 \/ 3 < r.

(** A sequence the questionnaire's data model excludes. *)
Definition invalid_responses (rs : list Z) : Prop :=
  length rs <> 9%nat \/ Exists out_of_scale rs.

(** A sequence of the data model: nine answers, each in [0..3]. *)
Definition valid_responses (rs : list Z) : Prop :=
  length rs = 9%nat /\ Forall (fun r => 0 <= r <= 3) rs.

Definition phq9_rejects (rs : list Z) : Prop :=
  exists msg, analyze_phq9 rs = Raise msg.

(** ** Statements about the journal analysis *)

(** The text passes the length check of [analyze_journal_text]. *)
Definition long_enough (text : pystr) : Prop :=
  (10 <= length (strip text))%nat.

(** A call of the encoder, of the scaler or of the classifier. *)
Definition is_ml_call (e : event) : bool :=
  match e with
  | CallTokenizer _ | CallBert _ | CallScalerTransform _
  | CallPredict _ | CallPredictProba _ => true
  | CallPolarityScores _ | LogError _ => false
  end.

(** Any call of a model, the sentiment analyzer included. *)
Definition is_model_call (e : event) : bool :=
  match e with
  | LogError _ => false
  | _ => true
  end.

(** The comparisons of Python floats as propositions: [a <= b], [a < b]. *)
Definition fle (a b : float) : Prop := PrimFloat.leb a b = true.
Definition flt (a b : float) : Prop := PrimFloat.ltb a b = true.

(** The order Minimal < Mild < Moderate on the labels of the estimator. *)
Definition severity_rank (severity : string) : nat :=
  if String.eqb severity "Minimal" then 0
  else if String.eqb severity "Mild" then 1
  else if String.eqb severity "Moderate" then 2
  else 3.

(** The [try] of [get_bert_embedding] raises [msg]: the tokenizer or the
    encoder failed. *)
Definition embedding_raises (py_lower : pystr -> pystr) (svc : MLService)
  (text : pystr) (msg : string) : Prop :=
  exists model tokenizer tr,
    bert_model svc = Some model /\
    bert_tokenizer svc = Some tokenizer /\
    extract_embedding py_lower model tokenizer text = (Raise msg, tr).

(** The [try] of [analyze_journal_text] raises [msg]: scaling or
    classification failed ([get_bert_embedding] itself never raises). *)
Definition classification_raises (py_lower : pystr -> pystr)
  (svc : MLService) (text : pystr) (msg : string) : Prop :=
  exists vader_scores tr_v tr,
    get_vader_scores py_lower svc text = (Ok vader_scores, tr_v) /\
    ml_analysis py_lower svc text vader_scores
      (initial_results text vader_scores) = (Raise msg, tr).

(** The caller gets a rule-based result. *)
Definition rule_based_result (d : gmap string pyval) : Prop :=
  d !! "method" = Some (PStr "rule_based") /\
  d !! "confidence" = Some (PFloat 0.7%float) /\
  exists vader_scores,
    d !! "vader_scores" = Some (PScores vader_scores) /\
    d !! "predicted_severity"
      = Some (PStr (fallback_severity vader_scores)) /\
    d !! "recommendations"
      = Some (PStrs (_get_journal_recommendations
                       (fallback_severity vader_scores) vader_scores)).

(** What C4 promises of a run in which the ML path failed: a result is
    returned, it carries ["ml_error"], and it is the rule-based one. *)
Definition failure_annotated (py_lower : pystr -> pystr) (svc : MLService)
  (text : pystr) : Prop :=
  exists d tr,
    analyze_journal_text py_lower svc text = (Ok d, tr) /\
    is_Some (d !! "ml_error") /\
    rule_based_result d.

(** ** Sample services and inputs *)

(** [str.lower] on the ASCII letters. *)
Definition ascii_lower (t : pystr) : pystr :=
  map (fun c => if (65 <=? c)%N && (c <=? 90)%N then (c + 32)%N else c) t.

Definition sample_polarity (_ : pystr) : result Polarity :=
  Ok (mkPolarity 0.05%float 0.45%float 0.5%float (-0.6)%float).

Definition sample_tokenizer (t : pystr) : result (list Z) :=
  Ok (map Z.of_N t).

Definition sample_bert (_ : list Z) : result (list float) :=
  Ok [0.25%float; (-1.5)%float].

Definition sample_scaler (x : list float) : result (list float) := Ok x.

Definition sample_classifier : Classifier :=
  mkClassifier (fun _ => Ok 2) (fun _ => Ok 0.9%float).

(** Every artifact loaded and working. *)
Definition svc_full : MLService :=
  mkService (Some sample_bert) (Some sample_tokenizer) (Some sample_polarity)
    (Some sample_scaler) (Some sample_classifier) true.


(** Every artifact loaded, and the encoder raises. *)
Definition svc_encoder_fails : MLService :=
  mkService (Some (fun _ => Raise "CUDA out of memory"))
    (Some sample_tokenizer) (Some sample_polarity)
    (Some sample_scaler) (Some sample_classifier) true.

(** Every artifact loaded, and the classifier raises. *)
Definition svc_classifier_fails : MLService :=
  mkService (Some sample_bert) (Some sample_tokenizer) (Some sample_polarity)
    (Some sample_scaler)
    (Some (mkClassifier (fun _ => Raise "X has 6 features, expected 772")
                        (fun _ => Ok 0.9%float)))
    true.

(** Every artifact loaded, and the classifier answers a class that
    [severity_map] does not know. *)
Definition svc_unmapped_class : MLService :=
  mkService (Some sample_bert) (Some sample_tokenizer) (Some sample_polarity)
    (Some sample_scaler)
    (Some (mkClassifier (fun _ => Ok 7) (fun _ => Ok 0.9%float)))
    true.

Definition sample_text : pystr := text_of "I feel tired and hopeless today".

Definition sample_scores : VaderScores :=
  mkScores 0.05%float 0.45%float 0.5%float (-0.6)%float.

(** ** Definitions for the further properties *)

(** A word: a text that is not empty and has no white space. *)
Definition is_word (w : pystr) : Prop :=
  w <> [] /\ Forall (fun c => is_space c = false) w.

(** The stage of the pipeline a call belongs to: 0 the sentiment analyzer,
    1 the tokenizer, 2 the encoder, 3 the scaler, 4 [predict],
    5 [predict_proba]; a log entry is no call. *)
Definition call_stage (e : event) : option nat :=
  match e with
  | CallPolarityScores _ => Some 0%nat
  | CallTokenizer _ => Some 1%nat
  | CallBert _ => Some 2%nat
  | CallScalerTransform _ => Some 3%nat
  | CallPredict _ => Some 4%nat
  | CallPredictProba _ => Some 5%nat
  | LogError _ => None
  end.

(** The stages called in a run, in order. *)
Definition stages (tr : list event) : list nat := omap call_stage tr.

(** The entries the ML path adds to [results], lines 250-256. *)
Definition ml_fields (prediction : Z) (confidence : float)
  (bert_embedding : list float) (vader_scores : VaderScores)
  : gmap string pyval :=
  py_dict
    [ ("ml_prediction", PInt prediction);
      ("predicted_severity", PStr (predicted_label prediction));
      ("confidence", PFloat confidence);
      ("bert_embedding", PFloats bert_embedding);
      ("recommendations",
        PStrs (_get_journal_recommendations (predicted_label prediction)
                 vader_scores)) ].

(** The feature vector given to the scaler, lines 228-237. *)
Definition combined_features (bert_embedding : list float)
  (vader_scores : VaderScores) : list float :=
  bert_embedding
  ++ [ positive vader_scores; negative vader_scores;
       neutral vader_scores; compound vader_scores ].

(** A loading call returned. *)
Definition is_ok {A} (r : result A) : bool :=
  match r with Ok _ => true | Raise _ => false end.

(** The order of the five bands of the questionnaire. *)
Definition phq9_rank (severity : string) : nat :=
  if String.eqb severity "Minimal" then 0
  else if String.eqb severity "Mild" then 1
  else if String.eqb severity "Moderate" then 2
  else if String.eqb severity "Moderately Severe" then 3
  else 4.

(** ** The routes of [routes.py] that call the service *)

(** A row of [phq9_assessments], as [phq9_assessment] fills it. *)
Record PHQ9Assessment := mkAssessment {
  assessment_user_id : string;
  q1_interest : Z;
  q2_depression : Z;
  q3_sleep : Z;
  q4_energy : Z;
  q5_appetite : Z;
  q6_selfworth : Z;
  q7_concentration : Z;
  q8_psychomotor : Z;
  q9_suicidal : Z;
  total_score : pyval;
  severity_level : pyval
}.

(** A row of [journal_entries], as [journal_analysis] fills it. *)
Record JournalEntry := mkEntry {
  entry_user_id : string;
  content : pystr;
  word_count : pyval;
  vader_positive : float;
  vader_negative : float;
  vader_neutral : float;
  vader_compound : float;
  severity_prediction : pyval;
  confidence_score : pyval;
  bert_embedding : option string
}.

(** What is given to [flash]. *)
Inductive flash_message :=
| FlashText (message category : string)
    (* flash('...', category) with a literal message *)
| FlashValue (message : pyval) (category : string)
    (* flash(analysis_result['error'], 'error') *)
| FlashCompleted (total severity : pyval)
    (* flash(f'Assessment completed. Score: {total}/27 - {severity}',
       'success') *)
| FlashAnalyzed (severity : pyval)
    (* flash(f'Journal analyzed. Predicted severity: {severity}',
       'success') *).

(** What is given to [render_template('analysis.html', ...)]. *)
Inductive page :=
| PagePhq9 (phq9_result : gmap string pyval) (assessment : PHQ9Assessment)
| PageJournal (journal_result : gmap string pyval) (entry : JournalEntry).

(** What [phq9_assessment] answers when it returns; each answer is given
    only after the calls of [flash], [redirect] and [render_template] that
    lead to it have returned. *)
Inductive phq9_response :=
| Phq9Redirect
    (* not a POST: redirect to the analysis page *)
| Phq9Missing
    (* flash 'Please answer all questions', redirect *)
| Phq9Failed
    (* the [except] branch: flash 'Error processing assessment. Please
       try again.', redirect *)
| Phq9Saved (assessment : PHQ9Assessment)
            (analysis_result : gmap string pyval)
    (* the row is committed, 'Assessment completed. ...' is flashed and
       the result is rendered *).

(** What [journal_analysis] answers when it returns. *)
Inductive journal_response :=
| JournalRedirect
    (* not a POST *)
| JournalTooShort
    (* flash 'Please write at least 20 characters for analysis' *)
| JournalAnalysisError (msg : pyval)
    (* flash(analysis_result['error']), redirect *)
| JournalFailed
    (* the [except] branch: flash 'Error analyzing journal entry. Please
       try again.', redirect *)
| JournalSaved (entry : JournalEntry)
               (analysis_result : gmap string pyval)
    (* the row is committed, 'Journal analyzed. ...' is flashed and the
       result is rendered *).

(** A call of the web framework or of the database: it returns or raises,
    and is no event of the service. *)
Definition external {A} (outcome : result A) : M A := (outcome, []).

Section Routes.

Variable py_lower : pystr -> pystr.

(** Python's [int] on a form value. *)
Variable py_int : pystr -> result Z.

(** [json.dumps] *)
Variable json_dumps : pyval -> result string.

(** The global [ml_service]. *)
Variable svc : MLService.

(** [db.session.add(row)] followed by [db.session.commit()]. *)
Variable commit_assessment : PHQ9Assessment -> result unit.
Variable commit_entry : JournalEntry -> result unit.

(** [flash(...)], [redirect(url_for('analysis'))] and
    [render_template('analysis.html', ...)]: each may raise. *)
Variable flash : flash_message -> result unit.
Variable redirect : result unit.
Variable render_template : page -> result unit.

(** The answer to question [i] of the form is the integer [answer]. *)
Definition form_answer (form : gmap string pystr) (i : nat) (answer : Z)
  : Prop :=
  exists response,
    form !! ("q" +:+ pretty i) = Some response /\
    py_int response = Ok answer.

(** The loop of [phq9_assessment], lines 61-67, from question [i] on:
    [None] when an answer is missing. *)
Fixpoint collect_responses (form : gmap string pystr) (questions : list nat)
  (responses : list Z) : result (option (list Z)) :=
  match questions with
  | [] => Ok (Some responses)
  | i :: questions =>
      match form !! ("q" +:+ pretty i) with
      | None => Ok None
      | Some response =>
          match py_int response with
          | Raise e => Raise e
          | Ok answer =>
              collect_responses form questions (responses ++ [answer])
          end
      end
  end.

(** [phq9_assessment] for a logged-in user [user_id]; [post] tells whether
    the request is a POST. A call that raises inside the [try] leads to
    the [except] branch; one that raises outside it, or in the [except]
    branch itself, makes the route raise. *)
Definition phq9_assessment (post : bool) (user_id : string)
  (form : gmap string pystr) : M phq9_response :=
  if post then
    try_except
      (match collect_responses form (seq 0 9) [] with
       | Raise e => raise e
       | Ok None =>
           let* _ := external
                       (flash (FlashText "Please answer all questions"
                                 "error")) in
           let* _ := external redirect in
           ret Phq9Missing
       | Ok (Some responses) =>
           match analyze_phq9 responses with
           | Raise e => raise e
           | Ok analysis_result =>
               match responses with
               | r0 :: r1 :: r2 :: r3 :: r4 :: r5 :: r6 :: r7 :: r8 :: _ =>
                   match analysis_result !! "total_score" with
                   | None => raise "'total_score'"
                   | Some total =>
                       match analysis_result !! "severity" with
                       | None => raise "'severity'"
                       | Some severity =>
                           let assessment :=
                             mkAssessment user_id r0 r1 r2 r3 r4 r5 r6 r7 r8
                               total severity in
                           let* _ := external
                                       (commit_assessment assessment) in
                           let* _ := external
                                       (flash (FlashCompleted total
                                                 severity)) in
                           let* _ := external
                                       (render_template
                                          (PagePhq9 analysis_result
                                             assessment)) in
                           ret (Phq9Saved assessment analysis_result)
                       end
                   end
               | _ => raise "list index out of range"
               end
           end
       end)
      (fun e =>
         let* _ := log_error ("PHQ-9 analysis error: " +:+ e) in
         let* _ := external
                     (flash (FlashText
                               "Error processing assessment. Please try again."
                               "error")) in
         let* _ := external redirect in
         ret Phq9Failed)
  else
    let* _ := external redirect in
    ret Phq9Redirect.

(** [journal_analysis] for a logged-in user [user_id]; [post] tells whether
    the request is a POST. *)
Definition journal_analysis (post : bool) (user_id : string)
  (form : gmap string pystr) : M journal_response :=
  if post then
    try_except
      (let journal_text := strip (default [] (form !! "journal_text")) in
       if (length journal_text <? 20)%nat then
         let* _ := external
                     (flash (FlashText
                               "Please write at least 20 characters for analysis"
                               "error")) in
         let* _ := external redirect in
         ret JournalTooShort
       else
         let* analysis_result :=
           analyze_journal_text py_lower svc journal_text in
         match analysis_result !! "error" with
         | Some msg =>
             let* _ := external (flash (FlashValue msg "error")) in
             let* _ := external redirect in
             ret (JournalAnalysisError msg)
         | None =>
             match analysis_result !! "word_count" with
             | None => raise "'word_count'"
             | Some words =>
                 match analysis_result !! "vader_scores" with
                 | None => raise "'vader_scores'"
                 | Some (PScores scores) =>
                     let entry embedding :=
                       mkEntry user_id journal_text words
                         (positive scores) (negative scores)
                         (neutral scores) (compound scores)
                         (default (PStr "Unknown")
                            (analysis_result !! "predicted_severity"))
                         (default (PFloat 0%float)
                            (analysis_result !! "confidence"))
                         embedding in
                     let* entry :=
                       match analysis_result !! "bert_embedding" with
                       | None => ret (entry None)
                       | Some embedding =>
                           let* text := external (json_dumps embedding) in
                           ret (entry (Some text))
                       end in
                     let* _ := external (commit_entry entry) in
                     let* _ := external
                                 (flash (FlashAnalyzed
                                           (default (PStr "Unknown")
                                              (analysis_result
                                               !! "predicted_severity")))) in
                     let* _ := external
                                 (render_template
                                    (PageJournal analysis_result entry)) in
                     ret (JournalSaved entry analysis_result)
                 | Some _ => raise "object is not subscriptable"
                 end
             end
         end)
      (fun e =>
         let* _ := log_error ("Journal analysis error: " +:+ e) in
         let* _ := external
                     (flash (FlashText
                               "Error analyzing journal entry. Please try again."
                               "error")) in
         let* _ := external redirect in
         ret JournalFailed)
  else
    let* _ := external redirect in
    ret JournalRedirect.

End Routes.

(** ** Further sample inputs *)

(** A service with nothing loaded, not even the sentiment analyzer. *)
Definition svc_nothing : MLService :=
  mkService None None None None None false.

(** A start-up in which every file is there and the encoder fails to
    load. *)
Definition env_encoder_fails : StartUp :=
  mkStartUp true true (Ok sample_tokenizer) (Raise "corrupt weights")
    (Ok sample_polarity) true (Ok sample_scaler) true
    (Ok sample_classifier).


(** A form with the answers 3, 3, 3, 3, 2, 2, 1, 0, 1. *)
Definition sample_phq9_form : gmap string pystr :=
  list_to_map
    [ ("q0", text_of "3"); ("q1", text_of "3"); ("q2", text_of "3");
      ("q3", text_of "3"); ("q4", text_of "2"); ("q5", text_of "2");
      ("q6", text_of "1"); ("q7", text_of "0"); ("q8", text_of "1") ].

Definition sample_journal_form : gmap string pystr :=
  list_to_map
    [ ("journal_text", text_of "  I feel tired and hopeless today  ") ].

Definition commit_assessment_ok (_ : PHQ9Assessment) : result unit := Ok tt.

Definition commit_entry_ok (_ : JournalEntry) : result unit := Ok tt.

Definition sample_json_dumps (_ : pyval) : result string :=
  Ok "[0.25, -1.5]".

Definition flash_ok (_ : flash_message) : result unit := Ok tt.

Definition redirect_ok : result unit := Ok tt.

Definition render_template_ok (_ : page) : result unit := Ok tt.

(** * Proofs *)

(** ** PHQ-9 scoring *)

Lemma fold_left_add_foldr (l : list Z) (a : Z) :
  fold_left Z.add l a = a + foldr Z.add 0 l.
Proof.
  revert a. induction l as [|x l IH]; intros a; simpl.
  - lia.
  - rewrite IH. lia.
Qed.

Lemma py_sum_foldr (l : list Z) : py_sum l = foldr Z.add 0 l.
Proof. unfold py_sum. rewrite fold_left_add_foldr. lia. Qed.

Lemma sum_bounds (l : list Z) :
  Forall (fun r => 0 <= r <= 3) l ->
  0 <= foldr Z.add 0 l <= 3 * Z.of_nat (length l).
Proof.
  induction 1 as [|x l Hx _ IH]; simpl; lia.
Qed.

(** A list of nine answers is accepted, and the dictionary it yields. *)
Lemma analyze_phq9_accepts (rs : list Z) :
  length rs = 9%nat ->
  analyze_phq9 rs =
    Ok (py_dict
          [ ("total_score", PInt (py_sum rs));
            ("max_score", PInt 27);
            ("severity", PStr (phq9_severity (py_sum rs)).1);
            ("description", PStr (phq9_severity (py_sum rs)).2);
            ("recommendations",
              PStrs (_get_phq9_recommendations
                       (phq9_severity (py_sum rs)).1 (py_sum rs)));
            ("analysis_type", PStr "PHQ-9") ]).
Proof.
  intros Hlen. unfold analyze_phq9. rewrite Hlen. simpl negb. cbv iota.
  destruct (phq9_severity (py_sum rs)) as [severity description].
  reflexivity.
Qed.

Lemma analyze_phq9_wrong_length (rs : list Z) :
  length rs <> 9%nat ->
  analyze_phq9 rs = Raise "PHQ-9 requires exactly 9 responses".
Proof.
  intros Hlen. unfold analyze_phq9.
  destruct (Nat.eqb_spec (length rs) 9) as [E | _]; [contradiction | reflexivity].
Qed.

Lemma phq9_severity_bands (total : Z) :
  (total <= 4 -> (phq9_severity total).1 = "Minimal") /\
  (5 <= total <= 9 -> (phq9_severity total).1 = "Mild") /\
  (10 <= total <= 14 -> (phq9_severity total).1 = "Moderate") /\
  (15 <= total <= 19 -> (phq9_severity total).1 = "Moderately Severe") /\
  (20 <= total -> (phq9_severity total).1 = "Severe").
Proof.
  unfold phq9_severity.
  destruct (Z.leb_spec total 4), (Z.leb_spec total 9),
    (Z.leb_spec total 14), (Z.leb_spec total 19);
    simpl; repeat split; intros; first [reflexivity | lia].
Qed.

(** The urgent advisory is in none of the four base lists. *)
Lemma urgent_not_in_base (severity : string) :
  urgent_advisory ∉ phq9_base severity.
Proof.
  unfold phq9_base.
  repeat match goal with |- context [String.eqb ?a ?b] =>
    destruct (String.eqb a b) end;
    intros Hin; repeat (apply elem_of_cons in Hin as [Hin | Hin];
                        [discriminate Hin |]);
    apply elem_of_nil in Hin; exact Hin.
Qed.

(** [_get_phq9_recommendations] for any label and any score. *)
Lemma phq9_recommendations_shape (severity : string) (score : Z) :
  _get_phq9_recommendations severity score =
    if 15 <=? score then urgent_advisory :: phq9_base severity
    else phq9_base severity.
Proof. reflexivity. Qed.

(** The only check [analyze_phq9] makes is on the length: a sequence
    whose length is not 9 raises [ValueError], and the values of a sequence
    of length 9 are summed as they are given. *)
Theorem analyze_phq9_validates_length_only (rs : list Z) :
  (length rs <> 9%nat -> phq9_rejects rs) /\
  (length rs = 9%nat ->
   exists d, analyze_phq9 rs = Ok d /\
             d !! "total_score" = Some (PInt (foldr Z.add 0 rs))).
Proof.
  split; intros Hlen.
  - eexists. apply analyze_phq9_wrong_length, Hlen.
  - eexists. split; [apply analyze_phq9_accepts, Hlen |].
    rewrite py_sum_foldr. reflexivity.
Qed.

(** C2: nine answers in [0..3] give a total equal to their sum, between 0
    and 27, and the label of the band the total falls in: at most 4
    Minimal, 5-9 Mild, 10-14 Moderate, 15-19 Moderately Severe, 20 and more
    Severe. *)
Theorem analyze_phq9_total_and_band (rs : list Z) :
  valid_responses rs ->
  let total := foldr Z.add 0 rs in
  exists d severity,
    analyze_phq9 rs = Ok d /\
    d !! "total_score" = Some (PInt total) /\
    0 <= total <= 27 /\
    d !! "severity" = Some (PStr severity) /\
    (total <= 4 -> severity = "Minimal") /\
    (5 <= total <= 9 -> severity = "Mild") /\
    (10 <= total <= 14 -> severity = "Moderate") /\
    (15 <= total <= 19 -> severity = "Moderately Severe") /\
    (20 <= total -> severity = "Severe").
Proof.
  intros [Hlen Hrange] total.
  exists (py_dict
          [ ("total_score", PInt (py_sum rs));
            ("max_score", PInt 27);
            ("severity", PStr (phq9_severity (py_sum rs)).1);
            ("description", PStr (phq9_severity (py_sum rs)).2);
            ("recommendations",
              PStrs (_get_phq9_recommendations
                       (phq9_severity (py_sum rs)).1 (py_sum rs)));
            ("analysis_type", PStr "PHQ-9") ]),
    (phq9_severity total).1.
  split; [apply analyze_phq9_accepts, Hlen |].
  rewrite py_sum_foldr. fold total.
  split; [reflexivity |].
  split; [pose proof (sum_bounds rs Hrange) as Hb; rewrite Hlen in Hb;
          subst total; lia |].
  split; [reflexivity |].
  apply phq9_severity_bands.
Qed.



(** ** The order of floats *)

Lemma SFleb_trans (x y z : spec_float) :
  SFleb x y = true -> SFleb y z = true -> SFleb x z = true.
Proof.
  unfold SFleb, SFcompare.
  destruct x as [sx | sx | | sx mx ex], y as [sy | sy | | sy my ey],
    z as [sz | sz | | sz mz ez];
    try destruct sx; try destruct sy; try destruct sz;
    try discriminate; try reflexivity.
  all: change (Pos.compare_cont Eq) with Pos.compare.
  all: destruct (Z.compare_spec ex ey), (Z.compare_spec ey ez),
         (Z.compare_spec ex ez);
    try discriminate; try reflexivity; try lia.
  all: subst.
  all: destruct (Pos.compare_spec mx my), (Pos.compare_spec my mz),
         (Pos.compare_spec mx mz);
    simpl; try discriminate; try reflexivity; try lia.
Qed.

Lemma fle_trans (x y z : float) : fle x y -> fle y z -> fle x z.
Proof. unfold fle. rewrite !leb_spec. apply SFleb_trans. Qed.

(** ** The rule-based estimator *)

(** C3: the estimator is a total function of the scores; it answers
    Moderate when compound <= -0.5 or negative >= 0.4, otherwise Mild when
    compound <= -0.2 or negative >= 0.2, otherwise Minimal, and always
    attaches the confidence 0.7 and the method rule_based. *)
Theorem fallback_analysis_rules (vader_scores : VaderScores) :
  let d := _fallback_analysis vader_scores in
  let c := compound vader_scores in
  let n := negative vader_scores in
  d !! "confidence" = Some (PFloat 0.7%float) /\
  d !! "method" = Some (PStr "rule_based") /\
  exists severity,
    d !! "predicted_severity" = Some (PStr severity) /\
    (fle c (-0.5)%float \/ fle 0.4%float n -> severity = "Moderate") /\
    (~ (fle c (-0.5)%float \/ fle 0.4%float n) ->
     fle c (-0.2)%float \/ fle 0.2%float n -> severity = "Mild") /\
    (~ (fle c (-0.5)%float \/ fle 0.4%float n) ->
     ~ (fle c (-0.2)%float \/ fle 0.2%float n) -> severity = "Minimal").
Proof.
  intros d c n.
  split; [reflexivity |]. split; [reflexivity |].
  exists (fallback_severity vader_scores). split; [reflexivity |].
  unfold fallback_severity, fle. fold c n.
  destruct (PrimFloat.leb c (-0.5)%float), (PrimFloat.leb 0.4%float n),
    (PrimFloat.leb c (-0.2)%float), (PrimFloat.leb 0.2%float n);
    simpl; repeat split; intros; try reflexivity;
    repeat match goal with
           | H : _ \/ _ |- _ => destruct H
           | H : ~ (_ \/ _) |- _ => exfalso; apply H; clear H; auto
           end; try discriminate.
Qed.

(** C10: lowering the compound score and raising the negative score never
    lowers the label of the estimator. *)
Theorem fallback_severity_monotone (s s' : VaderScores) :
  fle (compound s') (compound s) ->
  fle (negative s) (negative s') ->
  (severity_rank (fallback_severity s)
   <= severity_rank (fallback_severity s'))%nat.
Proof.
  intros Hc Hn. unfold fallback_severity.
  destruct (PrimFloat.leb (compound s) (-0.5)%float) eqn:C1.
  { rewrite (fle_trans _ _ _ Hc C1). simpl. lia. }
  destruct (PrimFloat.leb 0.4%float (negative s)) eqn:N1.
  { rewrite (fle_trans _ _ _ N1 Hn), !orb_true_r. simpl. lia. }
  destruct (PrimFloat.leb (compound s) (-0.2)%float) eqn:C2.
  { rewrite (fle_trans _ _ _ Hc C2). simpl.
    destruct (_ || _); vm_compute; lia. }
  destruct (PrimFloat.leb 0.2%float (negative s)) eqn:N2.
  { rewrite (fle_trans _ _ _ N2 Hn), !orb_true_r. simpl.
    destruct (_ || _); vm_compute; lia. }
  simpl. apply Nat.le_0_l.
Qed.

(** ** Journal recommendations *)

(** Membership in a list of string literals, by computation. *)
Ltac mem_literal :=
  match goal with
  | |- ?x ∈ ?l =>
      apply (bool_decide_eq_true_1 (x ∈ l)); vm_compute; reflexivity
  | |- ?x ∉ ?l =>
      apply (bool_decide_eq_false_1 (x ∈ l)); vm_compute; reflexivity
  end.

Lemma journal_base_cases (severity : string) :
  journal_base severity = journal_minimal \/
  journal_base severity = journal_mild \/
  journal_base severity = journal_moderate \/
  journal_base severity = journal_severe.
Proof.
  unfold journal_base.
  repeat match goal with |- context [String.eqb ?a ?b] =>
    destruct (String.eqb a b) end; auto.
Qed.

Lemma advisories_not_in_base (severity : string) :
  (challenge_advisory ∉ journal_base severity) /\
  (pleasant_advisory ∉ journal_base severity).
Proof.
  destruct (journal_base_cases severity) as [-> | [-> | [-> | ->]]];
    split; mem_literal.
Qed.

(** C8: the recommendations are the base list of the label, then the
    challenge advisory exactly when negative > 0.3, then the pleasant
    activities advisory exactly when positive < 0.1; each advisory is in the
    list exactly under its own condition. *)
Theorem journal_recommendations_additive (severity : string)
  (vader_scores : VaderScores) :
  let recs := _get_journal_recommendations severity vader_scores in
  recs = journal_base severity
         ++ (if PrimFloat.ltb 0.3%float (negative vader_scores)
             then [challenge_advisory] else [])
         ++ (if PrimFloat.ltb (positive vader_scores) 0.1%float
             then [pleasant_advisory] else []) /\
  (challenge_advisory ∈ recs <-> flt 0.3%float (negative vader_scores)) /\
  (pleasant_advisory ∈ recs <-> flt (positive vader_scores) 0.1%float).
Proof.
  intros recs. subst recs. unfold _get_journal_recommendations, flt.
  destruct (advisories_not_in_base severity) as [Hc Hp].
  destruct (PrimFloat.ltb 0.3%float (negative vader_scores)),
    (PrimFloat.ltb (positive vader_scores) 0.1%float);
    rewrite <- ?app_assoc, ?app_nil_r;
    (split; [reflexivity |]); split; split; intros H;
    try reflexivity; try discriminate;
    rewrite ?elem_of_app, ?list_elem_of_singleton in *;
    try (unfold challenge_advisory, pleasant_advisory in *; intuition discriminate);
    intuition auto.
Qed.

Lemma journal_base_unrecognized (severity : string) :
  severity <> "Minimal" -> severity <> "Mild" -> severity <> "Moderate" ->
  journal_base severity = journal_severe.
Proof.
  intros H1 H2 H3. unfold journal_base.
  destruct (String.eqb_spec severity "Minimal"); [contradiction |].
  destruct (String.eqb_spec severity "Mild"); [contradiction |].
  destruct (String.eqb_spec severity "Moderate"); [contradiction |].
  reflexivity.
Qed.

Lemma predicted_label_unmapped (prediction : Z) :
  ~ 0 <= prediction <= 3 -> predicted_label prediction = "Unknown".
Proof.
  intros H. unfold predicted_label, severity_map. simpl.
  rewrite !lookup_insert_ne by lia. rewrite lookup_empty. reflexivity.
Qed.

(** C9: a label other than Minimal, Mild and Moderate gets the four
    recommendations of the Severe band (the [else] branch), followed by the
    advisories the scores call for, exactly as the label Severe does; the
    label of a class code outside 0..3 is Unknown, which is such a label. *)
Theorem unrecognized_severity_is_severe (severity : string)
  (prediction : Z) (vader_scores : VaderScores) :
  let severe_band :=
    [ "Seek professional help immediately";
      "Share your concerns with trusted people";
      "Use journaling as a tool with professional guidance";
      "Focus on safety and self-care" ] in
  let advisories :=
    (if PrimFloat.ltb 0.3%float (negative vader_scores)
     then ["Consider challenging negative thought patterns"] else [])
    ++ (if PrimFloat.ltb (positive vader_scores) 0.1%float
        then ["Try to identify and engage in pleasant activities"]
        else []) in
  (severity <> "Minimal" -> severity <> "Mild" -> severity <> "Moderate" ->
   journal_base severity = journal_severe /\
   _get_journal_recommendations severity vader_scores
     = severe_band ++ advisories /\
   _get_journal_recommendations severity vader_scores
     = _get_journal_recommendations "Severe" vader_scores) /\
  (~ 0 <= prediction <= 3 ->
   predicted_label prediction = "Unknown" /\
   journal_base (predicted_label prediction) = journal_severe /\
   _get_journal_recommendations (predicted_label prediction) vader_scores
     = severe_band ++ advisories /\
   _get_journal_recommendations (predicted_label prediction) vader_scores
     = _get_journal_recommendations "Severe" vader_scores).
Proof.
  intros severe_band advisories.
  assert (Hsevere : forall label,
            journal_base label = journal_severe ->
            _get_journal_recommendations label vader_scores
            = severe_band ++ advisories).
  { intros label Hb. subst severe_band advisories.
    unfold _get_journal_recommendations. rewrite Hb.
    destruct (PrimFloat.ltb 0.3%float (negative vader_scores)),
      (PrimFloat.ltb (positive vader_scores) 0.1%float); reflexivity. }
  split.
  - intros H1 H2 H3.
    pose proof (journal_base_unrecognized severity H1 H2 H3) as Hb.
    split; [exact Hb |]. split; [apply Hsevere, Hb |].
    rewrite (Hsevere severity Hb). symmetry. apply Hsevere. reflexivity.
  - intros H. rewrite (predicted_label_unmapped prediction H).
    split; [reflexivity |]. split; [reflexivity |].
    split; [apply Hsevere; reflexivity |].
    rewrite (Hsevere "Unknown" eq_refl). symmetry. apply Hsevere.
    reflexivity.
Qed.

(** ** Journal analysis *)

Lemma guard_long_enough (text : pystr) :
  long_enough text ->
  match text with [] => true | _ => false end
  || (length (strip text) <? 10)%nat = false.
Proof.
  unfold long_enough. intros H.
  destruct text as [|c text]; [simpl in H; lia |].
  apply Nat.ltb_ge. exact H.
Qed.

Lemma guard_too_short (text : pystr) :
  (length (strip text) < 10)%nat ->
  match text with [] => true | _ => false end
  || (length (strip text) <? 10)%nat = true.
Proof.
  intros H. apply orb_true_iff. right. apply Nat.ltb_lt. exact H.
Qed.

(** [get_vader_scores] always returns, and calls no model but the
    sentiment analyzer. *)
Lemma get_vader_scores_returns (py_lower : pystr -> pystr) (svc : MLService)
  (text : pystr) :
  exists vader_scores tr,
    get_vader_scores py_lower svc text = (Ok vader_scores, tr) /\
    Forall (fun e => is_ml_call e = false) tr.
Proof.
  unfold get_vader_scores.
  destruct (vader_analyzer svc) as [polarity_scores |].
  - unfold try_except, bind, call, log_error, ret.
    destruct (polarity_scores _) as [scores | msg];
      eexists _, _; (split; [reflexivity | repeat constructor]).
  - eexists _, _. split; [reflexivity | constructor].
Qed.

(** [get_bert_embedding] never raises. *)
Lemma get_bert_embedding_returns (py_lower : pystr -> pystr)
  (svc : MLService) (text : pystr) :
  exists embedding tr,
    get_bert_embedding py_lower svc text = (Ok embedding, tr).
Proof.
  unfold get_bert_embedding.
  destruct (bert_model svc) as [model |]; [| eexists _, _; reflexivity].
  destruct (bert_tokenizer svc) as [tokenizer |]; [| eexists _, _; reflexivity].
  unfold try_except, bind, log_error, ret.
  destruct (extract_embedding py_lower model tokenizer text) as [[emb | msg] tr];
    eexists _, _; reflexivity.
Qed.

(** A failure of the tokenizer or of the encoder is caught in
    [get_bert_embedding], logged, and turned into [None]. *)
Lemma get_bert_embedding_caught (py_lower : pystr -> pystr)
  (svc : MLService) (text : pystr) (msg : string) :
  embedding_raises py_lower svc text msg ->
  exists tr,
    get_bert_embedding py_lower svc text = (Ok None, tr) /\
    LogError ("Error getting BERT embedding: " +:+ msg) ∈ tr.
Proof.
  intros (model & tokenizer & tr & Hm & Ht & Hraise).
  unfold get_bert_embedding. rewrite Hm, Ht.
  unfold try_except, bind, log_error, ret. rewrite Hraise.
  eexists. split; [reflexivity |].
  rewrite !elem_of_app, list_elem_of_singleton. auto.
Qed.

Lemma initial_results_no_severity (text : pystr) (vs : VaderScores) :
  py_in "predicted_severity" (initial_results text vs) = false.
Proof. reflexivity. Qed.

(** The run of [analyze_journal_text] on a text that is long enough, after
    the sentiment scores are known. *)
Lemma analyze_journal_text_long (py_lower : pystr -> pystr) (svc : MLService)
  (text : pystr) (vs : VaderScores) (tr_v : list event) :
  long_enough text ->
  get_vader_scores py_lower svc text = (Ok vs, tr_v) ->
  analyze_journal_text py_lower svc text =
    let '(r, tr) :=
      (let* results :=
         if model_loaded svc then
           try_except
             (ml_analysis py_lower svc text vs (initial_results text vs))
             (fun e =>
                let* _ := log_error ("Error in ML analysis: " +:+ e) in
                ret (<["ml_error" := PStr e]> (initial_results text vs)))
         else ret (initial_results text vs) in
       if negb (py_in "predicted_severity" results) then
         ret (py_update results (_fallback_analysis vs))
       else ret results) in
    (r, tr_v ++ tr).
Proof.
  intros Hlong Hv. unfold analyze_journal_text.
  rewrite (guard_long_enough text Hlong).
  unfold bind at 1. rewrite Hv. reflexivity.
Qed.

Lemma rule_based_after_fallback (results : gmap string pyval)
  (vs : VaderScores) :
  results !! "vader_scores" = Some (PScores vs) ->
  rule_based_result (py_update results (_fallback_analysis vs)).
Proof.
  intros Hvs. unfold rule_based_result, py_update.
  split; [apply lookup_union_Some_l; reflexivity |].
  split; [apply lookup_union_Some_l; reflexivity |].
  exists vs.
  split; [| split; apply lookup_union_Some_l; reflexivity].
  rewrite lookup_union_r; [exact Hvs | reflexivity].
Qed.

(** C6: a text whose stripped length is below 10, the empty text included,
    gets the too-short error dictionary, and the run calls no model and
    logs nothing. *)
Theorem too_short_text_is_rejected (py_lower : pystr -> pystr)
  (svc : MLService) (text : pystr) :
  (length (strip text) < 10)%nat ->
  analyze_journal_text py_lower svc text = (Ok too_short_error, []) /\
  too_short_error !! "error" = Some (PStr "Text too short for analysis") /\
  too_short_error !! "predicted_severity" = None.
Proof.
  intros Hshort. unfold analyze_journal_text.
  rewrite (guard_too_short text Hshort).
  repeat split; reflexivity.
Qed.

(** After [__init__], [model_loaded] holds only if the encoder, the
    sentiment analyzer, the scaler and the classifier are all loaded. *)
Lemma init_model_loaded (env : StartUp) :
  model_loaded (MLService_init env) = true ->
  all_models_present (MLService_init env) = true.
Proof.
  unfold MLService_init, _load_models, and_then, assign, skip.
  destruct (ml_libraries env), (bert_dir_exists env),
    (tokenizer_from_pretrained env), (bert_from_pretrained env),
    (new_vader_analyzer env), (scaler_file_exists env), (load_scaler env),
    (classifier_file_exists env), (load_classifier env);
    simpl; intros H; first [reflexivity | discriminate H].
Qed.

Lemma missing_artifact_not_loaded (env : StartUp) :
  bert_model (MLService_init env) = None
  \/ scaler (MLService_init env) = None
  \/ classifier (MLService_init env) = None ->
  model_loaded (MLService_init env) = false.
Proof.
  intros Hmissing.
  destruct (model_loaded (MLService_init env)) eqn:Hloaded; [| reflexivity].
  apply init_model_loaded in Hloaded. unfold all_models_present in Hloaded.
  destruct (bert_model (MLService_init env)),
    (vader_analyzer (MLService_init env)), (scaler (MLService_init env)),
    (classifier (MLService_init env));
    first [discriminate Hloaded
          | destruct Hmissing as [H | [H | H]]; discriminate H].
Qed.

(** Without [model_loaded] the [try] of [analyze_journal_text] is skipped:
    the run is that of the sentiment analyzer, and the estimator decides. *)
Lemma analyze_without_models (py_lower : pystr -> pystr)
  (svc : MLService) (text : pystr) (vs : VaderScores) (tr_v : list event) :
  model_loaded svc = false ->
  long_enough text ->
  get_vader_scores py_lower svc text = (Ok vs, tr_v) ->
  analyze_journal_text py_lower svc text =
    (Ok (py_update (initial_results text vs) (_fallback_analysis vs)), tr_v).
Proof.
  intros Hloaded Hlong Hv.
  rewrite (analyze_journal_text_long _ _ _ _ _ Hlong Hv), Hloaded.
  unfold bind, ret. rewrite initial_results_no_severity. simpl negb. cbv iota.
  rewrite !app_nil_r. reflexivity.
Qed.


(** The same for a service as [__init__] builds it, when the encoder, the
    scaler or the classifier could not be loaded. *)
Corollary missing_artifact_rule_based (py_lower : pystr -> pystr)
  (env : StartUp) (text : pystr) :
  bert_model (MLService_init env) = None
  \/ scaler (MLService_init env) = None
  \/ classifier (MLService_init env) = None ->
  long_enough text ->
  exists d tr,
    analyze_journal_text py_lower (MLService_init env) text = (Ok d, tr) /\
    Forall (fun e => is_ml_call e = false) tr /\
    d !! "method" = Some (PStr "rule_based").
Proof.
  intros Hmissing Hlong.
  pose proof (missing_artifact_not_loaded env Hmissing) as Hloaded.
  destruct (get_vader_scores_returns py_lower (MLService_init env) text)
    as (vs & tr_v & Hv & Hcalls).
  exists (py_update (initial_results text vs) (_fallback_analysis vs)), tr_v.
  split; [exact (analyze_without_models _ _ _ _ _ Hloaded Hlong Hv) |].
  split; [exact Hcalls | reflexivity].
Qed.

(** When the encoder fails, the [try] of [analyze_journal_text] completes
    and leaves [results] as it was. *)
Lemma ml_analysis_embedding_raises (py_lower : pystr -> pystr)
  (svc : MLService) (text : pystr) (msg : string) (vs : VaderScores)
  (results : gmap string pyval) :
  embedding_raises py_lower svc text msg ->
  exists tr,
    ml_analysis py_lower svc text vs results = (Ok results, tr) /\
    LogError ("Error getting BERT embedding: " +:+ msg) ∈ tr.
Proof.
  intros Hraise.
  destruct (get_bert_embedding_caught _ _ _ _ Hraise) as (tr & Hrun & Hlog).
  unfold ml_analysis, bind. rewrite Hrun. unfold ret.
  eexists. split; [reflexivity |].
  rewrite elem_of_app. auto.
Qed.

(** C4, as amended: with the models loaded and a text that is long
    enough, a failure of the ML path never reaches the caller, who gets the
    rule-based result. A failure of scaling or classification is recorded
    under ["ml_error"] with its message and logged; a failure of embedding
    extraction is caught and logged by [get_bert_embedding], and leaves no
    ["ml_error"] in the result. *)
Theorem ml_failure_falls_back (py_lower : pystr -> pystr) (svc : MLService)
  (text : pystr) (msg : string) :
  long_enough text ->
  model_loaded svc = true ->
  embedding_raises py_lower svc text msg
  \/ classification_raises py_lower svc text msg ->
  exists d tr,
    analyze_journal_text py_lower svc text = (Ok d, tr) /\
    rule_based_result d /\
    (classification_raises py_lower svc text msg ->
     d !! "ml_error" = Some (PStr msg) /\
     LogError ("Error in ML analysis: " +:+ msg) ∈ tr) /\
    (embedding_raises py_lower svc text msg ->
     d !! "ml_error" = None /\
     LogError ("Error getting BERT embedding: " +:+ msg) ∈ tr).
Proof.
  intros Hlong Hloaded Hfail.
  destruct (get_vader_scores_returns py_lower svc text)
    as (vs & tr_v & Hv & _).
  rewrite (analyze_journal_text_long _ _ _ _ _ Hlong Hv), Hloaded.
  destruct Hfail as [Hemb | Hcls].
  - destruct (ml_analysis_embedding_raises py_lower svc text msg vs
                (initial_results text vs) Hemb) as (tr_e & Hrun & Hlog).
    unfold bind, try_except. rewrite Hrun.
    rewrite initial_results_no_severity. simpl negb. cbv iota. unfold ret.
    eexists _, _. split; [reflexivity |].
    split; [apply rule_based_after_fallback; reflexivity |].
    split.
    + intros (vs' & tr_v' & tr' & Hv' & Hraise).
      rewrite Hv in Hv'. injection Hv' as <- <-.
      rewrite Hrun in Hraise. discriminate Hraise.
    + intros _. split; [reflexivity |].
      rewrite !elem_of_app. auto.
  - destruct Hcls as (vs' & tr_v' & tr_c & Hv' & Hraise).
    assert (Hcls : classification_raises py_lower svc text msg)
      by (exists vs', tr_v', tr_c; auto).
    rewrite Hv in Hv'. injection Hv' as <- <-.
    unfold bind, try_except. rewrite Hraise.
    unfold log_error, ret.
    replace (py_in "predicted_severity"
               (<["ml_error":=PStr msg]> (initial_results text vs)))
      with false by reflexivity.
    simpl negb. cbv iota.
    eexists _, _. split; [reflexivity |].
    split; [apply rule_based_after_fallback; reflexivity |].
    split.
    + intros _. split; [reflexivity |].
      rewrite !elem_of_app, list_elem_of_singleton. auto.
    + intros Hemb. exfalso.
      destruct (ml_analysis_embedding_raises py_lower svc text msg vs
                  (initial_results text vs) Hemb) as (tr_e & Hrun & _).
      rewrite Hrun in Hraise. discriminate Hraise.
Qed.

(** * Instances *)

(** ** The questionnaire on concrete answers *)

(** The two scenarios of the specification. *)
Example phq9_all_zero :
  exists d, analyze_phq9 [0; 0; 0; 0; 0; 0; 0; 0; 0] = Ok d /\
            d !! "total_score" = Some (PInt 0) /\
            d !! "severity" = Some (PStr "Minimal") /\
            d !! "recommendations" = Some (PStrs phq9_minimal).
Proof. eexists. repeat split; reflexivity. Qed.

Example phq9_eighteen :
  exists d, analyze_phq9 [3; 3; 3; 3; 2; 2; 1; 0; 1] = Ok d /\
            d !! "total_score" = Some (PInt 18) /\
            d !! "severity" = Some (PStr "Moderately Severe") /\
            d !! "recommendations"
              = Some (PStrs (urgent_advisory :: phq9_severe)).
Proof. eexists. repeat split; reflexivity. Qed.

(** C1: the code breaks the claim. Nine answers of which one is 5, outside
    the 0-3 scale of the questionnaire, are not rejected by [analyze_phq9]:
    they are scored 5, Mild. *)
Lemma out_of_scale_response_is_scored :
  invalid_responses [5; 0; 0; 0; 0; 0; 0; 0; 0] /\
  ~ phq9_rejects [5; 0; 0; 0; 0; 0; 0; 0; 0] /\
  exists d, analyze_phq9 [5; 0; 0; 0; 0; 0; 0; 0; 0] = Ok d /\
            d !! "total_score" = Some (PInt 5) /\
            d !! "severity" = Some (PStr "Mild").
Proof.
  split; [| split].
  - right. apply Exists_cons_hd. right. lia.
  - intros [msg H]. discriminate H.
  - eexists. repeat split; reflexivity.
Qed.

(** Nine answers of 5 are scored 45 out of a [max_score] of 27. *)
Example nine_fives_exceed_max_score :
  exists d, analyze_phq9 [5; 5; 5; 5; 5; 5; 5; 5; 5] = Ok d /\
            d !! "total_score" = Some (PInt 45) /\
            d !! "max_score" = Some (PInt 27) /\
            d !! "severity" = Some (PStr "Severe").
Proof. eexists. repeat split; reflexivity. Qed.

Lemma analyze_phq9_validates_length_only_witness :
  (length [1; 2] <> 9%nat /\ phq9_rejects [1; 2]) /\
  (length [5; 0; 0; 0; 0; 0; 0; 0; 0] = 9%nat /\
   exists d, analyze_phq9 [5; 0; 0; 0; 0; 0; 0; 0; 0] = Ok d /\
             d !! "total_score" = Some (PInt 5)).
Proof.
  split.
  - assert (H : length [1; 2] <> 9%nat) by (simpl; lia).
    split; [exact H |].
    exact (proj1 (analyze_phq9_validates_length_only [1; 2]) H).
  - split; [reflexivity |].
    exact (proj2 (analyze_phq9_validates_length_only
                    [5; 0; 0; 0; 0; 0; 0; 0; 0]) eq_refl).
Defined.

Lemma analyze_phq9_total_and_band_witness :
  valid_responses [3; 3; 3; 3; 2; 2; 1; 0; 1] /\
  exists d, analyze_phq9 [3; 3; 3; 3; 2; 2; 1; 0; 1] = Ok d /\
            d !! "total_score" = Some (PInt 18) /\
            d !! "severity" = Some (PStr "Moderately Severe").
Proof.
  assert (H : valid_responses [3; 3; 3; 3; 2; 2; 1; 0; 1])
    by (split; [reflexivity | repeat constructor; lia]).
  split; [exact H |].
  destruct (analyze_phq9_total_and_band _ H)
    as (d & severity & Hrun & Htotal & _ & Hsev & _ & _ & _ & H15 & _).
  exists d. split; [exact Hrun |]. split; [exact Htotal |].
  rewrite Hsev, H15; [reflexivity | vm_compute; split; discriminate].
Defined.


(** ** The estimator and the recommendations on concrete scores *)

Lemma fallback_analysis_rules_witness :
  _fallback_analysis sample_scores !! "confidence" = Some (PFloat 0.7%float) /\
  _fallback_analysis sample_scores !! "predicted_severity"
    = Some (PStr "Moderate").
Proof.
  destruct (fallback_analysis_rules sample_scores)
    as (Hconf & _ & severity & Hsev & Hmoderate & _).
  split; [exact Hconf |].
  rewrite Hsev, Hmoderate; [reflexivity |].
  left. reflexivity.
Defined.

Lemma fallback_severity_monotone_witness :
  fle (compound sample_scores) (compound zero_scores) /\
  fle (negative zero_scores) (negative sample_scores) /\
  (severity_rank (fallback_severity zero_scores)
   <= severity_rank (fallback_severity sample_scores))%nat.
Proof.
  assert (Hc : fle (compound sample_scores) (compound zero_scores))
    by reflexivity.
  assert (Hn : fle (negative zero_scores) (negative sample_scores))
    by reflexivity.
  split; [exact Hc |]. split; [exact Hn |].
  exact (fallback_severity_monotone zero_scores sample_scores Hc Hn).
Defined.

Lemma journal_recommendations_additive_witness :
  _get_journal_recommendations "Mild" sample_scores
    = journal_mild ++ [challenge_advisory; pleasant_advisory].
Proof.
  exact (proj1 (journal_recommendations_additive "Mild" sample_scores)).
Defined.

Lemma unrecognized_severity_is_severe_witness :
  _get_journal_recommendations "Unknown" sample_scores
    = [ "Seek professional help immediately";
        "Share your concerns with trusted people";
        "Use journaling as a tool with professional guidance";
        "Focus on safety and self-care";
        "Consider challenging negative thought patterns";
        "Try to identify and engage in pleasant activities" ] /\
  predicted_label 7 = "Unknown" /\
  _get_journal_recommendations (predicted_label 7) sample_scores
    = _get_journal_recommendations "Severe" sample_scores.
Proof.
  destruct (unrecognized_severity_is_severe "Unknown" 7 sample_scores)
    as [Hlabel Hcode].
  split.
  - assert (H1 : "Unknown" <> "Minimal") by discriminate.
    assert (H2 : "Unknown" <> "Mild") by discriminate.
    assert (H3 : "Unknown" <> "Moderate") by discriminate.
    exact (proj1 (proj2 (Hlabel H1 H2 H3))).
  - assert (H : ~ 0 <= 7 <= 3) by lia.
    destruct (Hcode H) as (Hu & _ & _ & Hrecs).
    split; [exact Hu | exact Hrecs].
Defined.

(** ** The journal analysis on concrete services *)

Example sample_text_is_long_enough : long_enough sample_text.
Proof. unfold long_enough. vm_compute. lia. Qed.

(** An unmapped class code: the label is Unknown and the recommendations
    are those of Severe. *)
Example unmapped_class_run :
  exists d tr,
    analyze_journal_text ascii_lower svc_unmapped_class sample_text
      = (Ok d, tr) /\
    d !! "predicted_severity" = Some (PStr "Unknown") /\
    d !! "recommendations"
      = Some (PStrs (journal_severe
                     ++ [challenge_advisory; pleasant_advisory])).
Proof. eexists _, _. repeat split; vm_compute; reflexivity. Qed.

(** C4 fails as stated: with every model loaded and an encoder that raises,
    the result carries no ["ml_error"]. *)
Lemma encoder_failure_not_annotated :
  long_enough sample_text /\
  model_loaded svc_encoder_fails = true /\
  embedding_raises ascii_lower svc_encoder_fails sample_text
    "CUDA out of memory" /\
  ~ failure_annotated ascii_lower svc_encoder_fails sample_text.
Proof.
  split; [unfold long_enough; vm_compute; lia |].
  split; [reflexivity |].
  split.
  - eexists _, _, _. repeat split; vm_compute; reflexivity.
  - intros (d & tr & Hrun & Herr & _).
    assert (Hnone :
      match analyze_journal_text ascii_lower svc_encoder_fails sample_text
      with
      | (Ok d, _) => d !! "ml_error"
      | (Raise _, _) => None
      end = None) by (vm_compute; reflexivity).
    rewrite Hrun in Hnone. rewrite Hnone in Herr.
    destruct Herr as [v Hv]. discriminate Hv.
Qed.

Lemma ml_failure_falls_back_witness :
  long_enough sample_text /\
  model_loaded svc_classifier_fails = true /\
  classification_raises ascii_lower svc_classifier_fails sample_text
    "X has 6 features, expected 772" /\
  exists d tr,
    analyze_journal_text ascii_lower svc_classifier_fails sample_text
      = (Ok d, tr) /\
    rule_based_result d /\
    d !! "ml_error" = Some (PStr "X has 6 features, expected 772").
Proof.
  assert (Hlong : long_enough sample_text)
    by (unfold long_enough; vm_compute; lia).
  assert (Hcls : classification_raises ascii_lower svc_classifier_fails
                   sample_text "X has 6 features, expected 772")
    by (eexists _, _, _; split; vm_compute; reflexivity).
  split; [exact Hlong |]. split; [reflexivity |]. split; [exact Hcls |].
  destruct (ml_failure_falls_back ascii_lower svc_classifier_fails
              sample_text _ Hlong eq_refl (or_intror Hcls))
    as (d & tr & Hrun & Hrule & Hrecorded & _).
  exists d, tr. split; [exact Hrun |]. split; [exact Hrule |].
  exact (proj1 (Hrecorded Hcls)).
Defined.


Lemma too_short_text_is_rejected_witness :
  (length (strip (text_of "   so sad     ")) < 10)%nat /\
  analyze_journal_text ascii_lower svc_full (text_of "   so sad     ")
    = (Ok too_short_error, []).
Proof.
  assert (Hshort : (length (strip (text_of "   so sad     ")) < 10)%nat)
    by (vm_compute; lia).
  split; [exact Hshort |].
  exact (proj1 (too_short_text_is_rejected ascii_lower svc_full _ Hshort)).
Defined.

(** * Further properties *)

(** ** Text: stripping and splitting *)

Lemma lstrip_app_word (l m : pystr) (c : N) :
  is_space c = false -> lstrip (l ++ c :: m) = lstrip l ++ c :: m.
Proof.
  intros Hc. induction l as [|x l IH]; simpl.
  - rewrite Hc. reflexivity.
  - destruct (is_space x); [exact IH | reflexivity].
Qed.

Lemma lstrip_head (t : pystr) :
  match lstrip t with
  | [] => True
  | c :: _ => is_space c = false
  end.
Proof.
  induction t as [|x t IH]; simpl; [exact I |].
  destruct (is_space x) eqn:Hx; [exact IH | exact Hx].
Qed.

Lemma lstrip_fixed (c : N) (t : pystr) :
  is_space c = false -> lstrip (c :: t) = c :: t.
Proof. intros Hc. simpl. rewrite Hc. reflexivity. Qed.

Lemma lstrip_idem (t : pystr) : lstrip (lstrip t) = lstrip t.
Proof.
  pose proof (lstrip_head t) as H.
  destruct (lstrip t) as [|c r]; [reflexivity | apply lstrip_fixed, H].
Qed.

(** A text is the white space [lstrip] drops followed by what it keeps. *)
Lemma lstrip_decompose (t : pystr) :
  exists sp, Forall (fun c => is_space c = true) sp /\ t = sp ++ lstrip t.
Proof.
  induction t as [|x t (sp & Hsp & IH)]; simpl.
  - exists []. split; [constructor | reflexivity].
  - destruct (is_space x) eqn:Hx.
    + exists (x :: sp). split; [constructor; assumption |].
      simpl. f_equal. exact IH.
    + exists []. split; [constructor | reflexivity].
Qed.

Lemma lstrip_length (t : pystr) : (length (lstrip t) <= length t)%nat.
Proof.
  induction t as [|x t IH]; simpl; [lia |].
  destruct (is_space x); simpl; lia.
Qed.

(** [strip] of a text that starts and ends with characters that are not
    white space is the text itself. *)
Lemma strip_fixed (t : pystr) :
  match t with [] => True | c :: _ => is_space c = false end ->
  match rev t with [] => True | c :: _ => is_space c = false end ->
  strip t = t.
Proof.
  intros Hfirst Hlast. unfold strip.
  assert (H1 : lstrip t = t)
    by (destruct t as [|c r]; [reflexivity | apply lstrip_fixed, Hfirst]).
  rewrite H1.
  assert (H2 : lstrip (rev t) = rev t)
    by (destruct (rev t) as [|c r]; [reflexivity | apply lstrip_fixed, Hlast]).
  rewrite H2. apply rev_involutive.
Qed.

Lemma strip_ends (t : pystr) :
  match strip t with [] => True | c :: _ => is_space c = false end /\
  match rev (strip t) with [] => True | c :: _ => is_space c = false end.
Proof.
  unfold strip. rewrite rev_involutive. split; [| apply lstrip_head].
  pose proof (lstrip_head t) as H.
  destruct (lstrip t) as [|c r]; [exact I |].
  simpl rev. rewrite (lstrip_app_word (rev r) [] c H).
  rewrite rev_app_distr. simpl. exact H.
Qed.

Lemma strip_idem (t : pystr) : strip (strip t) = strip t.
Proof. apply strip_fixed; apply strip_ends. Qed.

Lemma strip_length (t : pystr) : (length (strip t) <= length t)%nat.
Proof.
  unfold strip. rewrite length_rev.
  etransitivity; [apply lstrip_length |]. rewrite length_rev.
  apply lstrip_length.
Qed.

(** A text is white space, its [strip], and white space again. *)
Lemma strip_decompose (t : pystr) :
  exists sp1 sp2,
    Forall (fun c => is_space c = true) sp1 /\
    Forall (fun c => is_space c = true) sp2 /\
    t = sp1 ++ strip t ++ sp2.
Proof.
  destruct (lstrip_decompose t) as (sp1 & Hsp1 & Ht).
  destruct (lstrip_decompose (rev (lstrip t))) as (sp2 & Hsp2 & Hr).
  exists sp1, (rev sp2). split; [exact Hsp1 |].
  split; [apply Forall_rev, Hsp2 |].
  unfold strip. rewrite <- rev_app_distr, <- Hr, rev_involutive. exact Ht.
Qed.

Lemma split_from_word (w cur t : pystr) :
  Forall (fun c => is_space c = false) w ->
  split_from cur (w ++ t) = split_from (rev w ++ cur) t.
Proof.
  intros Hw. revert cur.
  induction Hw as [|c w Hc _ IH]; intros cur; simpl; [reflexivity |].
  rewrite Hc, IH, <- app_assoc. reflexivity.
Qed.

Lemma split_from_spaces (sp cur : pystr) :
  Forall (fun c => is_space c = true) sp ->
  split_from cur sp = split_from cur [].
Proof.
  intros Hsp. revert cur.
  induction Hsp as [|c sp Hc _ IH]; intros cur; simpl; [reflexivity |].
  rewrite Hc. destruct cur as [|x cur]; rewrite IH; reflexivity.
Qed.

(** White space at the end of a text adds no word. *)
Lemma split_from_trailing (t sp cur : pystr) :
  Forall (fun c => is_space c = true) sp ->
  split_from cur (t ++ sp) = split_from cur t.
Proof.
  intros Hsp. revert cur.
  induction t as [|c t IH]; intros cur; simpl.
  - apply split_from_spaces, Hsp.
  - destruct (is_space c); [| apply IH].
    destruct cur; rewrite IH; reflexivity.
Qed.

(** White space at the start of a text adds no word. *)
Lemma split_leading (sp t : pystr) :
  Forall (fun c => is_space c = true) sp ->
  split (sp ++ t) = split t.
Proof.
  unfold split. induction 1 as [|c sp Hc _ IH]; simpl; [reflexivity |].
  rewrite Hc. exact IH.
Qed.

Lemma split_strip (t : pystr) : split (strip t) = split t.
Proof.
  destruct (strip_decompose t) as (sp1 & sp2 & H1 & H2 & Ht).
  rewrite Ht at 2. rewrite (split_leading _ _ H1).
  unfold split. rewrite (split_from_trailing _ _ _ H2). reflexivity.
Qed.

(** Every element of [split] is a word. *)
Lemma split_from_words (t cur : pystr) :
  Forall (fun c => is_space c = false) cur ->
  Forall is_word (split_from cur t).
Proof.
  revert cur. induction t as [|c t IH]; intros cur Hcur; simpl.
  - destruct cur as [|x cur]; [constructor |].
    constructor; [| constructor].
    split; [| apply Forall_rev, Hcur].
    intros H. apply (f_equal (@length N)) in H.
    rewrite length_rev in H. discriminate H.
  - destruct (is_space c) eqn:Hc.
    + destruct cur as [|x cur]; [apply IH; constructor |].
      constructor; [| apply IH; constructor].
      split; [| apply Forall_rev, Hcur].
      intros H. apply (f_equal (@length N)) in H.
      rewrite length_rev in H. discriminate H.
    + apply IH. constructor; assumption.
Qed.

Lemma split_words (t : pystr) : Forall is_word (split t).
Proof. apply split_from_words. constructor. Qed.

(** Joining words with single spaces and splitting again gives the words
    back. *)
Lemma split_join_space (words : list pystr) :
  Forall is_word words -> split (join_space words) = words.
Proof.
  intros Hwords. destruct Hwords as [|w rest Hw Hrest]; [reflexivity |].
  unfold split, join_space.
  revert w Hw. induction Hrest as [|w2 rest Hw2 _ IH]; intros w [Hne Hw].
  - simpl. rewrite app_nil_r.
    rewrite <- (app_nil_r w) at 1. rewrite (split_from_word _ _ _ Hw).
    simpl. rewrite app_nil_r.
    destruct (rev w) eqn:E.
    + apply (f_equal (@length N)) in E. rewrite length_rev in E.
      destruct w; [contradiction | discriminate E].
    + rewrite <- E, rev_involutive. reflexivity.
  - simpl flat_map. rewrite (split_from_word _ _ _ Hw). rewrite app_nil_r.
    simpl.
    destruct (rev w) eqn:E.
    + apply (f_equal (@length N)) in E. rewrite length_rev in E.
      destruct w; [contradiction | discriminate E].
    + rewrite <- E, rev_involutive. f_equal. apply IH, Hw2.
Qed.

(** The number of words of a text is at most its length. *)
Lemma split_from_length (t cur : pystr) :
  (length (split_from cur t)
   <= length t + match cur with [] => 0 | _ => 1 end)%nat.
Proof.
  revert cur. induction t as [|c t IH]; intros cur; simpl.
  - destruct cur; simpl; lia.
  - destruct (is_space c).
    + destruct cur; simpl; pose proof (IH []) as H; simpl in H; lia.
    + pose proof (IH (c :: cur)) as H. simpl in H. destruct cur; lia.
Qed.

Lemma split_length (t : pystr) : (length (split t) <= length t)%nat.
Proof. pose proof (split_from_length t []) as H. simpl in H. unfold split. lia. Qed.

(** A text with a character that is not white space has a word. *)
Lemma split_from_nonempty (t cur : pystr) :
  split_from cur t = [] -> cur = [] /\ Forall (fun c => is_space c = true) t.
Proof.
  revert cur. induction t as [|c t IH]; intros cur; simpl.
  - destruct cur; [split; [reflexivity | constructor] | discriminate].
  - destruct (is_space c) eqn:Hc.
    + destruct cur; [| discriminate].
      intros H. destruct (IH [] H) as [_ Ht]. split; [reflexivity |].
      constructor; assumption.
    + intros H. destruct (IH _ H) as [Hcur _]. discriminate Hcur.
Qed.

Lemma strip_spaces (t : pystr) :
  Forall (fun c => is_space c = true) t -> strip t = [].
Proof.
  intros H. unfold strip.
  assert (Hl : lstrip t = []).
  { induction H as [|c t Hc _ IH]; simpl; [reflexivity |].
    rewrite Hc. exact IH. }
  rewrite Hl. reflexivity.
Qed.

Lemma split_strip_nonempty (t : pystr) :
  strip t <> [] -> (1 <= length (split t))%nat.
Proof.
  intros Hne. destruct (split t) eqn:E; [| simpl; lia].
  exfalso. apply Hne. apply strip_spaces.
  exact (proj2 (split_from_nonempty t [] E)).
Qed.

Lemma join_space_first (words : list pystr) :
  Forall is_word words ->
  match join_space words with [] => True | c :: _ => is_space c = false end.
Proof.
  intros [|w rest [Hne Hw] _]; simpl; [exact I |].
  destruct Hw as [|c w Hc _]; [contradiction | exact Hc].
Qed.

Lemma join_space_last (words : list pystr) :
  Forall is_word words ->
  match rev (join_space words) with
  | [] => True
  | c :: _ => is_space c = false
  end.
Proof.
  intros [|w rest Hw Hrest]; [exact I |]. unfold join_space.
  revert w Hw. induction Hrest as [|w2 rest Hw2 _ IH]; intros w [Hne Hw].
  - simpl. rewrite app_nil_r.
    apply Forall_rev in Hw. destruct Hw; [exact I | assumption].
  - simpl flat_map.
    replace (w ++ 32%N :: w2 ++ flat_map (fun w' => 32%N :: w') rest)
      with ((w ++ [32%N]) ++ w2 ++ flat_map (fun w' => 32%N :: w') rest)
      by (rewrite <- app_assoc; reflexivity).
    rewrite rev_app_distr. specialize (IH w2 Hw2).
    destruct (rev (w2 ++ flat_map (fun w' => 32%N :: w') rest)) eqn:E.
    + apply (f_equal (@length N)) in E.
      rewrite length_rev, length_app in E.
      destruct Hw2 as [Hne2 _]. destruct w2; [contradiction | discriminate E].
    + exact IH.
Qed.

Lemma join_space_chars (words : list pystr) :
  Forall is_word words ->
  Forall (fun c => is_space c = true -> c = 32%N) (join_space words).
Proof.
  assert (Hword : forall w, is_word w ->
            Forall (fun c => is_space c = true -> c = 32%N) w).
  { intros w [_ Hw]. eapply Forall_impl; [exact Hw |].
    simpl. intros c Hc Hs. rewrite Hc in Hs. discriminate Hs. }
  intros [|w rest Hw Hrest]; [constructor |]. unfold join_space.
  apply Forall_app. split; [apply Hword, Hw |].
  induction Hrest as [|w2 rest Hw2 _ IH]; simpl; [constructor |].
  constructor; [reflexivity |].
  apply Forall_app. split; [apply Hword, Hw2 | exact IH].
Qed.

Section PreprocessText.

Variable py_lower : pystr -> pystr.

Lemma preprocess_text_join (text : pystr) :
  exists words,
    Forall is_word words /\
    preprocess_text py_lower text = join_space words /\
    (text <> [] -> words = split (py_lower text)).
Proof.
  destruct text as [|c text].
  - exists []. split; [constructor |]. split; [reflexivity | contradiction].
  - exists (split (strip (py_lower (c :: text)))).
    split; [apply split_words |]. split; [reflexivity |].
    intros _. apply split_strip.
Qed.

Lemma preprocess_text_stable (text : pystr) :
  strip (preprocess_text py_lower text) = preprocess_text py_lower text /\
  join_space (split (preprocess_text py_lower text))
  = preprocess_text py_lower text.
Proof.
  destruct (preprocess_text_join text) as (words & Hwords & -> & _).
  split; [apply strip_fixed;
          [apply join_space_first | apply join_space_last]; exact Hwords |].
  rewrite (split_join_space words Hwords). reflexivity.
Qed.

(** X1: the text [preprocess_text] returns has no white space at its ends,
    no white space but single U+0020 between its words, and normalising
    its white space again changes nothing. *)
Theorem preprocess_text_normal_form (text : pystr) :
  let processed := preprocess_text py_lower text in
  strip processed = processed /\
  join_space (split processed) = processed /\
  Forall (fun c => is_space c = true -> c = 32%N) processed.
Proof.
  intros processed. subst processed.
  destruct (preprocess_text_stable text) as [Hstrip Hjoin].
  split; [exact Hstrip |]. split; [exact Hjoin |].
  destruct (preprocess_text_join text) as (words & Hwords & -> & _).
  apply join_space_chars, Hwords.
Qed.

(** X2: [preprocess_text] keeps the words of the lower-cased text, in
    order; the empty text stays empty. *)
Theorem preprocess_text_words (text : pystr) :
  preprocess_text py_lower [] = [] /\
  (text <> [] ->
   split (preprocess_text py_lower text) = split (py_lower text)).
Proof.
  split; [reflexivity |]. intros Hne.
  destruct (preprocess_text_join text) as (words & Hwords & -> & Hsplit).
  rewrite (split_join_space words Hwords). apply Hsplit, Hne.
Qed.

(** X3: preprocessing is idempotent on any text that lower-casing leaves
    unchanged once it is preprocessed. *)
Theorem preprocess_text_idempotent (text : pystr) :
  py_lower (preprocess_text py_lower text) = preprocess_text py_lower text ->
  preprocess_text py_lower (preprocess_text py_lower text)
  = preprocess_text py_lower text.
Proof.
  intros Hlower.
  destruct (preprocess_text_stable text) as [Hstrip Hjoin].
  remember (preprocess_text py_lower text) as p eqn:Hp.
  destruct p as [|c p]; [reflexivity |].
  unfold preprocess_text at 1. rewrite Hlower, Hstrip. exact Hjoin.
Qed.

End PreprocessText.

(** ** The runs of the journal analysis *)

Lemma stages_app (tr1 tr2 : list event) :
  stages (tr1 ++ tr2) = stages tr1 ++ stages tr2.
Proof. apply omap_app. Qed.

Section JournalRuns.

Variable py_lower : pystr -> pystr.
Variable svc : MLService.

(** The three ways [get_vader_scores] runs. *)
Lemma get_vader_scores_cases (text : pystr) :
  let processed := preprocess_text py_lower text in
  (vader_analyzer svc = None /\
   get_vader_scores py_lower svc text = (Ok zero_scores, [])) \/
  (exists polarity_scores msg,
     vader_analyzer svc = Some polarity_scores /\
     polarity_scores processed = Raise msg /\
     get_vader_scores py_lower svc text =
       (Ok zero_scores,
        [CallPolarityScores processed;
         LogError ("Error getting VADER scores: " +:+ msg)])) \/
  (exists polarity_scores scores,
     vader_analyzer svc = Some polarity_scores /\
     polarity_scores processed = Ok scores /\
     get_vader_scores py_lower svc text =
       (Ok (mkScores (pos scores) (neg scores) (neu scores)
                     (compound_score scores)),
        [CallPolarityScores processed])).
Proof.
  intros processed. unfold get_vader_scores.
  destruct (vader_analyzer svc) as [polarity_scores |]; [| left; auto].
  right. fold processed.
  unfold try_except, bind, call, log_error, ret.
  destruct (polarity_scores processed) as [scores | msg] eqn:E.
  - right. exists polarity_scores, scores. auto.
  - left. exists polarity_scores, msg. auto.
Qed.

(** The ways [get_bert_embedding] runs. *)
Lemma get_bert_embedding_cases (text : pystr) :
  let processed := preprocess_text py_lower text in
  ((bert_model svc = None \/ bert_tokenizer svc = None) /\
   get_bert_embedding py_lower svc text = (Ok None, [])) \/
  (exists model tokenizer,
     bert_model svc = Some model /\ bert_tokenizer svc = Some tokenizer /\
     ((exists msg,
         tokenizer processed = Raise msg /\
         get_bert_embedding py_lower svc text =
           (Ok None,
            [CallTokenizer processed;
             LogError ("Error getting BERT embedding: " +:+ msg)])) \/
      (exists inputs msg,
         tokenizer processed = Ok inputs /\ model inputs = Raise msg /\
         get_bert_embedding py_lower svc text =
           (Ok None,
            [CallTokenizer processed; CallBert inputs;
             LogError ("Error getting BERT embedding: " +:+ msg)])) \/
      (exists inputs embedding,
         tokenizer processed = Ok inputs /\ model inputs = Ok embedding /\
         get_bert_embedding py_lower svc text =
           (Ok (Some embedding),
            [CallTokenizer processed; CallBert inputs])))).
Proof.
  intros processed. unfold get_bert_embedding.
  destruct (bert_model svc) as [model |]; [| left; auto].
  destruct (bert_tokenizer svc) as [tokenizer |]; [| left; auto].
  right. exists model, tokenizer. split; [reflexivity |].
  split; [reflexivity |].
  unfold extract_embedding. fold processed.
  unfold try_except, bind, call, log_error, ret.
  destruct (tokenizer processed) as [inputs | msg] eqn:Et.
  - destruct (model inputs) as [embedding | msg] eqn:Em.
    + right. right. exists inputs, embedding. auto.
    + right. left. exists inputs, msg. auto.
  - left. exists msg. auto.
Qed.

End JournalRuns.

Section JournalRuns2.

Variable py_lower : pystr -> pystr.
Variable svc : MLService.

(** The ways the [try] of [analyze_journal_text] runs: the embedding is
    unavailable and [results] is left as it was; a call raises; or every
    stage answers and the ML entries are added. In each case the stages
    called are an initial part of tokenizer, encoder, scaler, [predict],
    [predict_proba]. *)
Lemma ml_analysis_cases (text : pystr) (vs : VaderScores)
  (results : gmap string pyval) :
  exists r tr n,
    ml_analysis py_lower svc text vs results = (r, tr) /\
    stages tr = take n [1; 2; 3; 4; 5]%nat /\
    ((r = Ok results /\ (n <= 2)%nat /\
      forall embedding tr',
        get_bert_embedding py_lower svc text <> (Ok (Some embedding), tr')) \/
     (exists msg, r = Raise msg /\ (2 <= n)%nat) \/
     (exists embedding scaled prediction confidence transform clf tr_e,
        get_bert_embedding py_lower svc text = (Ok (Some embedding), tr_e) /\
        scaler svc = Some transform /\
        transform (combined_features embedding vs) = Ok scaled /\
        classifier svc = Some clf /\
        predict clf scaled = Ok prediction /\
        predict_proba_max clf scaled = Ok confidence /\
        tr = tr_e ++ [CallScalerTransform (combined_features embedding vs);
                      CallPredict scaled; CallPredictProba scaled] /\
        n = 5%nat /\
        r = Ok (py_update results
                  (ml_fields prediction confidence embedding vs)))).
Proof.
  unfold ml_analysis.
  destruct (get_bert_embedding_cases py_lower svc text)
    as [[_ Hrun] | (model & tokenizer & _ & _ &
         [(msg & _ & Hrun) | [(inputs & msg & _ & _ & Hrun)
                             | (inputs & embedding & _ & _ & Hrun)]])];
    unfold bind at 1; rewrite Hrun; unfold ret.
  - exists (Ok results), [], 0%nat. split; [reflexivity |].
    split; [reflexivity |]. left. split; [reflexivity |].
    split; [lia | discriminate].
  - eexists (Ok results), _, 1%nat. split; [reflexivity |].
    split; [reflexivity |]. left. split; [reflexivity |].
    split; [lia | discriminate].
  - eexists (Ok results), _, 2%nat. split; [reflexivity |].
    split; [reflexivity |]. left. split; [reflexivity |].
    split; [lia | discriminate].
  - fold (combined_features embedding vs).
    destruct (scaler svc) as [transform |].
    2:{ eexists _, _, 2%nat. unfold bind, raise.
        split; [reflexivity |]. split; [reflexivity |].
        right. left. eexists. split; [reflexivity | lia]. }
    unfold bind at 1, call at 1.
    destruct (transform (combined_features embedding vs))
      as [scaled | msg] eqn:Es.
    2:{ eexists _, _, 3%nat.
        split; [reflexivity |]. split; [reflexivity |].
        right. left. eexists. split; [reflexivity | lia]. }
    destruct (classifier svc) as [clf |].
    2:{ eexists _, _, 3%nat. unfold bind, raise.
        split; [reflexivity |]. split; [reflexivity |].
        right. left. eexists. split; [reflexivity | lia]. }
    unfold bind at 1, call at 1.
    destruct (predict clf scaled) as [prediction | msg] eqn:Ep.
    2:{ eexists _, _, 4%nat.
        split; [reflexivity |]. split; [reflexivity |].
        right. left. eexists. split; [reflexivity | lia]. }
    unfold bind at 1, call at 1.
    destruct (predict_proba_max clf scaled) as [confidence | msg] eqn:Ec.
    2:{ eexists _, _, 5%nat.
        split; [reflexivity |]. split; [reflexivity |].
        right. left. eexists. split; [reflexivity | lia]. }
    eexists _, _, 5%nat.
    split; [reflexivity |]. split; [reflexivity |].
    right. right.
    exists embedding, scaled, prediction, confidence, transform, clf.
    eexists. split; [reflexivity |].
    repeat (split; [first [reflexivity | assumption] |]). reflexivity.
Qed.


(** The ways [analyze_journal_text] runs on a text that is long enough:
    the estimator decides (the models are not loaded, or the embedding is
    unavailable), a stage raises and the estimator decides, or the
    classifier decides. *)
Lemma analyze_journal_text_cases (text : pystr) :
  long_enough text ->
  exists vs tr_v d tr n,
    get_vader_scores py_lower svc text = (Ok vs, tr_v) /\
    analyze_journal_text py_lower svc text = (Ok d, tr_v ++ tr) /\
    stages tr = take n [1; 2; 3; 4; 5]%nat /\
    ((d = py_update (initial_results text vs) (_fallback_analysis vs) /\
      (n <= 2)%nat /\ (model_loaded svc = false -> tr = [])) \/
     (exists msg,
        model_loaded svc = true /\ (2 <= n)%nat /\
        d = py_update (<["ml_error" := PStr msg]> (initial_results text vs))
              (_fallback_analysis vs) /\
        LogError ("Error in ML analysis: " +:+ msg) ∈ tr) \/
     (exists embedding prediction confidence,
        model_loaded svc = true /\ n = 5%nat /\
        d = py_update (initial_results text vs)
              (ml_fields prediction confidence embedding vs))).
Proof.
  intros Hlong.
  destruct (get_vader_scores_returns py_lower svc text)
    as (vs & tr_v & Hv & _).
  exists vs, tr_v.
  destruct (model_loaded svc) eqn:Hloaded.
  2:{ exists (py_update (initial_results text vs) (_fallback_analysis vs)),
        [], 0%nat.
      split; [exact Hv |].
      split; [rewrite app_nil_r;
              exact (analyze_without_models _ _ _ _ _ Hloaded Hlong Hv) |].
      split; [reflexivity |]. left.
      split; [reflexivity |]. split; [lia | reflexivity]. }
  rewrite (analyze_journal_text_long _ _ _ _ _ Hlong Hv), Hloaded.
  destruct (ml_analysis_cases text vs (initial_results text vs))
    as (r & tr & n & Hrun & Hstages &
        [(-> & Hn & _) | [(msg & -> & Hn)
          | (emb & scaled & p & c & _ & _ & _ & _ & _ & _ & _ & _ & _ & _ & Hn & ->)]]);
    unfold bind at 1, try_except; rewrite Hrun.
  - rewrite initial_results_no_severity. simpl negb. cbv iota. unfold ret.
    eexists _, _, n. split; [exact Hv |]. split; [reflexivity |].
    rewrite !app_nil_r. split; [exact Hstages |]. left.
    split; [reflexivity |]. split; [exact Hn | discriminate].
  - unfold bind, log_error, ret.
    replace (py_in "predicted_severity"
               (<["ml_error":=PStr msg]> (initial_results text vs)))
      with false by reflexivity.
    simpl negb. cbv iota.
    eexists _, _, n. split; [exact Hv |]. split; [reflexivity |].
    split; [rewrite !stages_app, Hstages; simpl; rewrite !app_nil_r;
            reflexivity |].
    right. left. exists msg. split; [reflexivity |]. split; [exact Hn |].
    split; [reflexivity |].
    rewrite !elem_of_app, list_elem_of_singleton. auto.
  - replace (py_in "predicted_severity"
               (py_update (initial_results text vs) (ml_fields p c emb vs)))
      with true by reflexivity.
    simpl negb. cbv iota. unfold ret.
    eexists _, _, n. split; [exact Hv |]. split; [reflexivity |].
    rewrite !app_nil_r. split; [exact Hstages |].
    right. right. exists emb, p, c. auto.
Qed.

End JournalRuns2.

Lemma predicted_label_range (prediction : Z) :
  predicted_label prediction
  ∈ ["Minimal"; "Mild"; "Moderate"; "Severe"; "Unknown"].
Proof.
  destruct (decide (0 <= prediction <= 3)) as [Hin | Hout].
  - assert (H : prediction = 0 \/ prediction = 1 \/ prediction = 2
                \/ prediction = 3) by lia.
    destruct H as [-> | [-> | [-> | ->]]]; mem_literal.
  - rewrite (predicted_label_unmapped prediction Hout). mem_literal.
Qed.

Lemma long_enough_dec (text : pystr) :
  long_enough text \/ (length (strip text) < 10)%nat.
Proof. unfold long_enough. lia. Qed.

Section JournalOutcomes.

Variable py_lower : pystr -> pystr.
Variable svc : MLService.

(** X4: [analyze_journal_text] never raises, whatever the models do. It
    returns the too-short error, or a rule-based result without any ML
    entry, or a classifier result, which has no ["method"] and no
    ["ml_error"] and whose label is one of Minimal, Mild, Moderate, Severe
    and Unknown. *)
Theorem analyze_journal_text_outcomes (text : pystr) :
  exists d tr,
    analyze_journal_text py_lower svc text = (Ok d, tr) /\
    (((length (strip text) < 10)%nat /\ d = too_short_error /\ tr = []) \/
     (long_enough text /\ d !! "error" = None /\ rule_based_result d /\
      d !! "ml_prediction" = None /\ d !! "bert_embedding" = None) \/
     (long_enough text /\ model_loaded svc = true /\
      d !! "error" = None /\ d !! "method" = None /\
      d !! "ml_error" = None /\
      exists prediction vs,
        d !! "ml_prediction" = Some (PInt prediction) /\
        d !! "predicted_severity"
          = Some (PStr (predicted_label prediction)) /\
        predicted_label prediction
          ∈ ["Minimal"; "Mild"; "Moderate"; "Severe"; "Unknown"] /\
        d !! "vader_scores" = Some (PScores vs) /\
        d !! "recommendations"
          = Some (PStrs (_get_journal_recommendations
                           (predicted_label prediction) vs)))).
Proof.
  destruct (long_enough_dec text) as [Hlong | Hshort].
  2:{ exists too_short_error, []. split; [| left; auto].
      unfold analyze_journal_text. rewrite (guard_too_short text Hshort).
      reflexivity. }
  destruct (analyze_journal_text_cases py_lower svc text Hlong)
    as (vs & tr_v & d & tr & n & _ & Hrun & _ &
        [(-> & _) | [(msg & _ & _ & -> & _) | (emb & p & c & Hloaded & _ & ->)]]);
    eexists _, _; (split; [exact Hrun |]); right.
  - left. split; [exact Hlong |]. split; [reflexivity |].
    split; [apply rule_based_after_fallback; reflexivity |].
    split; reflexivity.
  - left. split; [exact Hlong |]. split; [reflexivity |].
    split; [apply rule_based_after_fallback; reflexivity |].
    split; reflexivity.
  - right. split; [exact Hlong |]. split; [exact Hloaded |].
    repeat (split; [reflexivity |]).
    exists p, vs. split; [reflexivity |]. split; [reflexivity |].
    split; [apply predicted_label_range |]. split; reflexivity.
Qed.

(** X5: in every run each model is called at most once and in the order of
    the pipeline, and a stage is called only after all the stages before
    it: the calls are the sentiment analyzer, if there is one, then an
    initial part of tokenizer, encoder, scaler, [predict], [predict_proba],
    which is empty when the models are not loaded. *)
Theorem analyze_journal_text_call_order (text : pystr) :
  exists d tr n_v n,
    analyze_journal_text py_lower svc text = (Ok d, tr) /\
    stages tr = take n_v [0%nat] ++ take n [1; 2; 3; 4; 5]%nat /\
    (vader_analyzer svc = None -> n_v = 0%nat) /\
    (model_loaded svc = false -> n = 0%nat) /\
    (is_Some (d !! "ml_prediction") -> n = 5%nat).
Proof.
  destruct (long_enough_dec text) as [Hlong | Hshort].
  2:{ exists too_short_error, [], 0%nat, 0%nat.
      unfold analyze_journal_text. rewrite (guard_too_short text Hshort).
      split; [reflexivity |]. split; [reflexivity |].
      split; [reflexivity |]. split; [reflexivity |].
      intros [v Hv]. discriminate Hv. }
  destruct (analyze_journal_text_cases py_lower svc text Hlong)
    as (vs & tr_v & d & tr & n & Hv & Hrun & Hstages & Hcases).
  assert (Hnv : exists n_v, stages tr_v = take n_v [0%nat] /\
                            (vader_analyzer svc = None -> n_v = 0%nat)).
  { destruct (get_vader_scores_cases py_lower svc text)
      as [[Hnone Hv'] | [(f & msg & Hsome & _ & Hv')
                        | (f & scores & Hsome & _ & Hv')]];
      rewrite Hv in Hv'; injection Hv' as _ ->.
    - exists 0%nat. auto.
    - exists 1%nat. split; [reflexivity |]. rewrite Hsome. discriminate.
    - exists 1%nat. split; [reflexivity |]. rewrite Hsome. discriminate. }
  destruct Hnv as (n_v & Hsv & Hnone).
  assert (Hn0 : model_loaded svc = false -> tr = []).
  { intros Hloaded.
    destruct Hcases as [(_ & _ & H) | [(msg & H & _) | (e & p & c & H & _)]];
      [exact (H Hloaded) | congruence | congruence]. }
  assert (Hn5 : is_Some (d !! "ml_prediction") -> n = 5%nat).
  { intros [v Hd].
    destruct Hcases as [(-> & _) | [(msg & _ & _ & -> & _)
                                   | (e & p & c & _ & H & _)]];
      [discriminate Hd | discriminate Hd | exact H]. }
  destruct (model_loaded svc) eqn:Hloaded.
  - exists d, (tr_v ++ tr), n_v, n. split; [exact Hrun |].
    split; [rewrite stages_app, Hsv, Hstages; reflexivity |].
    split; [exact Hnone |]. split; [discriminate | exact Hn5].
  - exists d, (tr_v ++ tr), n_v, 0%nat. split; [exact Hrun |].
    rewrite (Hn0 eq_refl), app_nil_r.
    split; [rewrite Hsv, app_nil_r; reflexivity |].
    split; [exact Hnone |]. split; [reflexivity |].
    intros H. specialize (Hn5 H). subst n.
    rewrite (Hn0 eq_refl) in Hstages. discriminate Hstages.
Qed.

(** X6: the result for a text that is long enough records the length of
    the text as given, at least 10, and its number of words, at least one
    and at most the length. *)
Theorem analyze_journal_text_counts (text : pystr) :
  long_enough text ->
  exists d tr,
    analyze_journal_text py_lower svc text = (Ok d, tr) /\
    d !! "text_length" = Some (PInt (Z.of_nat (length text))) /\
    d !! "word_count" = Some (PInt (Z.of_nat (length (split text)))) /\
    (10 <= length text)%nat /\
    (1 <= length (split text) <= length text)%nat.
Proof.
  intros Hlong.
  destruct (analyze_journal_text_cases py_lower svc text Hlong)
    as (vs & tr_v & d & tr & n & _ & Hrun & _ &
        [(-> & _) | [(msg & _ & _ & -> & _) | (emb & p & c & _ & _ & ->)]]);
    eexists _, _; (split; [exact Hrun |]);
    (split; [reflexivity |]); (split; [reflexivity |]).
  all: pose proof (strip_length text) as Hs; unfold long_enough in Hlong.
  all: split; [lia |]; split; [| apply split_length].
  all: apply split_strip_nonempty; intros E; rewrite E in Hlong;
       simpl in Hlong; lia.
Qed.

End JournalOutcomes.

Lemma SFltb_leb_trans (x y z : spec_float) :
  SFltb x y = true -> SFleb y z = true -> SFltb x z = true.
Proof.
  unfold SFltb, SFleb, SFcompare.
  destruct x as [sx | sx | | sx mx ex], y as [sy | sy | | sy my ey],
    z as [sz | sz | | sz mz ez];
    try destruct sx; try destruct sy; try destruct sz;
    try discriminate; try reflexivity.
  all: change (Pos.compare_cont Eq) with Pos.compare.
  all: destruct (Z.compare_spec ex ey), (Z.compare_spec ey ez),
         (Z.compare_spec ex ez);
    try discriminate; try reflexivity; try lia.
  all: subst.
  all: destruct (Pos.compare_spec mx my), (Pos.compare_spec my mz),
         (Pos.compare_spec mx mz);
    simpl; try discriminate; try reflexivity; try lia.
Qed.

Lemma SFltb_leb (x y : spec_float) : SFltb x y = true -> SFleb x y = true.
Proof.
  unfold SFltb, SFleb. destruct (SFcompare x y) as [[| |] |];
    first [reflexivity | discriminate].
Qed.

Lemma flt_fle_trans (x y z : float) : flt x y -> fle y z -> flt x z.
Proof. unfold flt, fle. rewrite !ltb_spec, !leb_spec. apply SFltb_leb_trans. Qed.

Lemma flt_fle (x y : float) : flt x y -> fle x y.
Proof. unfold flt, fle. rewrite ltb_spec, leb_spec. apply SFltb_leb. Qed.

(** ** The estimator and its recommendations *)

(** X7: the estimator never answers Severe: its label is Minimal, Mild or
    Moderate, and none of the recommendations of the Severe band is in a
    rule-based result. *)
Theorem rule_based_never_severe (d : gmap string pyval) :
  rule_based_result d ->
  exists severity recs,
    d !! "predicted_severity" = Some (PStr severity) /\
    severity ∈ ["Minimal"; "Mild"; "Moderate"] /\
    d !! "recommendations" = Some (PStrs recs) /\
    forall r, r ∈ journal_severe -> r ∉ recs.
Proof.
  intros (_ & _ & vs & _ & Hsev & Hrecs).
  exists (fallback_severity vs),
    (_get_journal_recommendations (fallback_severity vs) vs).
  split; [exact Hsev |].
  split; [| split; [exact Hrecs |]].
  - unfold fallback_severity.
    destruct (_ || _); [mem_literal |]. destruct (_ || _); mem_literal.
  - intros r Hr. unfold _get_journal_recommendations, fallback_severity.
    destruct (PrimFloat.leb _ _ || PrimFloat.leb _ _);
      [| destruct (PrimFloat.leb _ _ || PrimFloat.leb _ _)];
      destruct (PrimFloat.ltb _ _), (PrimFloat.ltb _ _);
      repeat (apply elem_of_cons in Hr as [-> | Hr]; [mem_literal |]);
      apply elem_of_nil in Hr; contradiction.
Qed.

(** X8: the label and the advisories of the estimator agree: a negative
    score of at least 0.4 gives Moderate together with the advisory on
    negative thoughts, and a result labelled Minimal never carries that
    advisory. *)
Theorem fallback_label_and_advisory (vs : VaderScores) :
  let recs :=
    _get_journal_recommendations (fallback_severity vs) vs in
  (fle 0.4%float (negative vs) ->
   fallback_severity vs = "Moderate" /\ challenge_advisory ∈ recs) /\
  (fallback_severity vs = "Minimal" -> challenge_advisory ∉ recs).
Proof.
  intros recs. subst recs. split.
  - intros Hn.
    assert (Hlt : flt 0.3%float (negative vs))
      by (apply (flt_fle_trans _ 0.4%float); [reflexivity | exact Hn]).
    unfold fallback_severity, _get_journal_recommendations.
    rewrite Hn, Hlt, orb_true_r. split; [reflexivity |].
    destruct (PrimFloat.ltb (positive vs) 0.1%float);
      rewrite !elem_of_app, ?list_elem_of_singleton; auto.
  - intros Hmin.
    destruct (PrimFloat.ltb 0.3%float (negative vs)) eqn:Hlt.
    + exfalso.
      assert (Hle : fle 0.2%float (negative vs)).
      { apply flt_fle. apply (flt_fle_trans _ 0.3%float);
          [reflexivity | apply flt_fle, Hlt]. }
      unfold fallback_severity in Hmin. rewrite Hle, orb_true_r in Hmin.
      destruct (_ || _); discriminate Hmin.
    + unfold _get_journal_recommendations. rewrite Hmin, Hlt.
      destruct (PrimFloat.ltb (positive vs) 0.1%float); mem_literal.
Qed.

Section JournalStages.

Variable py_lower : pystr -> pystr.
Variable svc : MLService.

(** X9: [get_vader_scores] never raises and calls the analyzer at most
    once, on the preprocessed text. Without an analyzer it calls nothing;
    without an analyzer, or when the analyzer raises, the scores are all
    zero; otherwise they are the analyzer's, under the long key names. *)
Theorem get_vader_scores_degrades (text : pystr) :
  let processed := preprocess_text py_lower text in
  exists vs tr,
    get_vader_scores py_lower svc text = (Ok vs, tr) /\
    (vader_analyzer svc = None -> vs = zero_scores /\ tr = []) /\
    (forall polarity_scores msg,
       vader_analyzer svc = Some polarity_scores ->
       polarity_scores processed = Raise msg ->
       vs = zero_scores /\
       tr = [CallPolarityScores processed;
             LogError ("Error getting VADER scores: " +:+ msg)]) /\
    (forall polarity_scores scores,
       vader_analyzer svc = Some polarity_scores ->
       polarity_scores processed = Ok scores ->
       vs = mkScores (pos scores) (neg scores) (neu scores)
                     (compound_score scores) /\
       tr = [CallPolarityScores processed]).
Proof.
  intros processed.
  destruct (get_vader_scores_cases py_lower svc text)
    as [[Hnone Hrun] | [(f & msg & Hsome & Hf & Hrun)
                       | (f & scores & Hsome & Hf & Hrun)]];
    fold processed in Hrun; try fold processed in Hf;
    eexists _, _; (split; [exact Hrun |]).
  - split; [auto |]. split; intros f' x Hf'; congruence.
  - split; [congruence |].
    split; intros f' x Hf' Hx; rewrite Hsome in Hf';
      injection Hf' as <-; rewrite Hf in Hx.
    + injection Hx as <-. auto.
    + discriminate Hx.
  - split; [congruence |].
    split; intros f' x Hf' Hx; rewrite Hsome in Hf';
      injection Hf' as <-; rewrite Hf in Hx.
    + discriminate Hx.
    + injection Hx as <-. auto.
Qed.

(** X10: [get_bert_embedding] never raises. Without the encoder or the
    tokenizer it answers [None] and calls nothing; when the tokenizer
    raises the encoder is not called; a failure is logged and answered
    with [None]; an embedding is answered only when both calls return. *)
Theorem get_bert_embedding_degrades (text : pystr) :
  let processed := preprocess_text py_lower text in
  exists embedding tr,
    get_bert_embedding py_lower svc text = (Ok embedding, tr) /\
    (bert_model svc = None \/ bert_tokenizer svc = None ->
     embedding = None /\ tr = []) /\
    (forall tokenizer msg,
       bert_model svc <> None ->
       bert_tokenizer svc = Some tokenizer ->
       tokenizer processed = Raise msg ->
       embedding = None /\
       tr = [CallTokenizer processed;
             LogError ("Error getting BERT embedding: " +:+ msg)]) /\
    (forall e, embedding = Some e ->
       exists model tokenizer inputs,
         bert_model svc = Some model /\
         bert_tokenizer svc = Some tokenizer /\
         tokenizer processed = Ok inputs /\ model inputs = Ok e /\
         tr = [CallTokenizer processed; CallBert inputs]).
Proof.
  intros processed.
  destruct (get_bert_embedding_cases py_lower svc text)
    as [[Hnone Hrun] | (model & tokenizer & Hm & Ht &
         [(msg & Htok & Hrun) | [(inputs & msg & Htok & Hmod & Hrun)
                               | (inputs & e & Htok & Hmod & Hrun)]])];
    fold processed in Hrun; try fold processed in Htok;
    eexists _, _; (split; [exact Hrun |]).
  - split; [auto |].
    split; [| discriminate].
    intros t msg Hmodel Ht _. destruct Hnone as [H | H]; congruence.
  - split; [intros [H | H]; congruence |].
    split; [| discriminate].
    intros t m _ Ht' Hx. rewrite Ht in Ht'. injection Ht' as <-.
    rewrite Htok in Hx. injection Hx as <-. auto.
  - split; [intros [H | H]; congruence |].
    split; [| discriminate].
    intros t m _ Ht' Hx. rewrite Ht in Ht'. injection Ht' as <-.
    rewrite Htok in Hx. discriminate Hx.
  - split; [intros [H | H]; congruence |].
    split.
    + intros t m _ Ht' Hx. rewrite Ht in Ht'. injection Ht' as <-.
      rewrite Htok in Hx. discriminate Hx.
    + intros e' [= <-]. exists model, tokenizer, inputs. auto.
Qed.

(** X11: when every stage answers, the scaler receives the embedding
    followed by the positive, negative, neutral and compound scores, the
    classifier receives what the scaler returns, and the result holds the
    class code, its label, the classifier's confidence, the embedding and
    the recommendations of that label, and no ["method"]. *)
Theorem ml_path_feature_fusion (text : pystr) (vs : VaderScores)
  (tr_v : list event) (model : list Z -> result (list float))
  (tokenizer : pystr -> result (list Z))
  (transform : list float -> result (list float)) (clf : Classifier)
  (inputs : list Z) (embedding scaled : list float) (prediction : Z)
  (confidence : float) :
  let processed := preprocess_text py_lower text in
  let features :=
    embedding ++ [positive vs; negative vs; neutral vs; compound vs] in
  long_enough text ->
  model_loaded svc = true ->
  get_vader_scores py_lower svc text = (Ok vs, tr_v) ->
  bert_model svc = Some model ->
  bert_tokenizer svc = Some tokenizer ->
  tokenizer processed = Ok inputs ->
  model inputs = Ok embedding ->
  scaler svc = Some transform ->
  transform features = Ok scaled ->
  classifier svc = Some clf ->
  predict clf scaled = Ok prediction ->
  predict_proba_max clf scaled = Ok confidence ->
  exists d,
    analyze_journal_text py_lower svc text =
      (Ok d,
       tr_v ++ [CallTokenizer processed; CallBert inputs;
                CallScalerTransform features; CallPredict scaled;
                CallPredictProba scaled]) /\
    d !! "ml_prediction" = Some (PInt prediction) /\
    d !! "predicted_severity" = Some (PStr (predicted_label prediction)) /\
    d !! "confidence" = Some (PFloat confidence) /\
    d !! "bert_embedding" = Some (PFloats embedding) /\
    d !! "recommendations"
      = Some (PStrs (_get_journal_recommendations
                       (predicted_label prediction) vs)) /\
    d !! "vader_scores" = Some (PScores vs) /\
    d !! "method" = None.
Proof.
  intros processed features Hlong Hloaded Hv Hm Ht Htok Hmod Hs Hsc Hc Hp Hpp.
  rewrite (analyze_journal_text_long _ _ _ _ _ Hlong Hv), Hloaded.
  unfold ml_analysis, get_bert_embedding, extract_embedding.
  rewrite Hm, Ht, Hs, Hc. fold processed.
  unfold bind, try_except, call, ret.
  rewrite Htok, Hmod. fold features. rewrite Hsc, Hp, Hpp.
  fold (ml_fields prediction confidence embedding vs).
  replace (py_in "predicted_severity"
             (py_update (initial_results text vs)
                (ml_fields prediction confidence embedding vs)))
    with true by reflexivity.
  simpl negb. cbv iota.
  eexists. split; [reflexivity |].
  repeat split; reflexivity.
Qed.

(** X12: without the sentiment analyzer and without the models no model is
    called at all, and every text that is long enough is labelled Minimal
    with confidence 0.7, whatever it says. *)
Theorem no_analyzer_always_minimal (text : pystr) :
  vader_analyzer svc = None ->
  model_loaded svc = false ->
  long_enough text ->
  exists d,
    analyze_journal_text py_lower svc text = (Ok d, []) /\
    d !! "predicted_severity" = Some (PStr "Minimal") /\
    d !! "confidence" = Some (PFloat 0.7%float) /\
    d !! "vader_scores" = Some (PScores zero_scores) /\
    d !! "recommendations"
      = Some (PStrs (journal_minimal ++ [pleasant_advisory])).
Proof.
  intros Hnone Hloaded Hlong.
  assert (Hv : get_vader_scores py_lower svc text = (Ok zero_scores, []))
    by (unfold get_vader_scores; rewrite Hnone; reflexivity).
  eexists. split; [exact (analyze_without_models _ _ _ _ _ Hloaded Hlong Hv) |].
  repeat split; reflexivity.
Qed.

End JournalStages.

(** ** Loading the models *)

(** X13: after [__init__], [model_loaded] holds exactly when the libraries
    were imported, the three artifacts exist, and every loading call
    returned. *)
Theorem init_model_loaded_iff (env : StartUp) :
  model_loaded (MLService_init env) = true <->
  ml_libraries env = true /\
  bert_dir_exists env = true /\
  is_ok (tokenizer_from_pretrained env) = true /\
  is_ok (bert_from_pretrained env) = true /\
  is_ok (new_vader_analyzer env) = true /\
  scaler_file_exists env = true /\
  is_ok (load_scaler env) = true /\
  classifier_file_exists env = true /\
  is_ok (load_classifier env) = true.
Proof.
  unfold MLService_init, _load_models, and_then, assign, skip.
  destruct (ml_libraries env), (bert_dir_exists env),
    (tokenizer_from_pretrained env), (bert_from_pretrained env),
    (new_vader_analyzer env), (scaler_file_exists env), (load_scaler env),
    (classifier_file_exists env), (load_classifier env);
    simpl; split; intros H; try discriminate H;
    try (repeat split; reflexivity);
    repeat match goal with H : _ /\ _ |- _ => destruct H end;
    discriminate.
Qed.

(** X14: when loading the tokenizer or the encoder raises, [_load_models]
    stops there: the sentiment analyzer, the scaler and the classifier are
    never loaded, so the service has no sentiment scores to fall back on. *)
Theorem bert_load_failure_stops_loading (env : StartUp) :
  ml_libraries env = true ->
  bert_dir_exists env = true ->
  is_ok (tokenizer_from_pretrained env) = false
  \/ is_ok (bert_from_pretrained env) = false ->
  let svc := MLService_init env in
  model_loaded svc = false /\
  bert_model svc = None /\
  vader_analyzer svc = None /\
  scaler svc = None /\
  classifier svc = None.
Proof.
  intros Hlib Hdir Hfail.
  unfold MLService_init, _load_models, and_then, assign, skip.
  rewrite Hlib, Hdir.
  destruct (tokenizer_from_pretrained env), (bert_from_pretrained env);
    simpl in *; destruct Hfail as [H | H]; try discriminate H;
    repeat split; reflexivity.
Qed.

(** X15: after [__init__] the encoder is never loaded without its
    tokenizer, and [model_loaded] implies that all five artifacts are
    loaded. *)
Theorem init_artifacts_invariant (env : StartUp) :
  let svc := MLService_init env in
  (is_Some (bert_model svc) -> is_Some (bert_tokenizer svc)) /\
  (model_loaded svc = true ->
   is_Some (bert_model svc) /\ is_Some (bert_tokenizer svc) /\
   is_Some (vader_analyzer svc) /\ is_Some (scaler svc) /\
   is_Some (classifier svc)).
Proof.
  unfold MLService_init, _load_models, and_then, assign, skip.
  destruct (ml_libraries env), (bert_dir_exists env),
    (tokenizer_from_pretrained env), (bert_from_pretrained env),
    (new_vader_analyzer env), (scaler_file_exists env), (load_scaler env),
    (classifier_file_exists env), (load_classifier env);
    simpl; split; intros H;
    first [discriminate H
          | exfalso; exact (is_Some_None H)
          | repeat split; eexists; reflexivity ].
Qed.

(** ** More on the questionnaire *)

Lemma py_sum_permutation (rs rs' : list Z) :
  Permutation rs rs' -> py_sum rs = py_sum rs'.
Proof.
  intros Hp. rewrite !py_sum_foldr.
  induction Hp as [| x l l' _ IH | x y l | l l' l'' _ IH1 _ IH2]; simpl; lia.
Qed.

(** X16: the result of the questionnaire does not depend on the order of the
    answers: no question weighs more than another. *)
Theorem analyze_phq9_order_irrelevant (rs rs' : list Z) :
  Permutation rs rs' -> analyze_phq9 rs = analyze_phq9 rs'.
Proof.
  intros Hp. unfold analyze_phq9.
  rewrite (Permutation_length Hp), (py_sum_permutation rs rs' Hp).
  reflexivity.
Qed.

Lemma py_sum_monotone (rs rs' : list Z) :
  Forall2 Z.le rs rs' -> py_sum rs <= py_sum rs'.
Proof.
  intros H. rewrite !py_sum_foldr.
  induction H as [| x y l l' Hxy _ IH]; simpl; lia.
Qed.

Lemma phq9_severity_monotone (t t' : Z) :
  t <= t' ->
  (phq9_rank (phq9_severity t).1 <= phq9_rank (phq9_severity t').1)%nat.
Proof.
  intros Hle. unfold phq9_severity.
  destruct (Z.leb_spec t 4), (Z.leb_spec t 9), (Z.leb_spec t 14),
    (Z.leb_spec t 19), (Z.leb_spec t' 4), (Z.leb_spec t' 9),
    (Z.leb_spec t' 14), (Z.leb_spec t' 19);
    try lia; vm_compute; lia.
Qed.

(** X17: raising answers never lowers the band: if each of nine answers is
    at most the corresponding answer of another questionnaire, the total
    and the rank of the severity are at most the other's, and an urgent
    advisory stays. *)
Theorem analyze_phq9_monotone (rs rs' : list Z) :
  length rs = 9%nat ->
  Forall2 Z.le rs rs' ->
  exists d d' total total' severity severity' recs recs',
    analyze_phq9 rs = Ok d /\ analyze_phq9 rs' = Ok d' /\
    d !! "total_score" = Some (PInt total) /\
    d' !! "total_score" = Some (PInt total') /\
    d !! "severity" = Some (PStr severity) /\
    d' !! "severity" = Some (PStr severity') /\
    d !! "recommendations" = Some (PStrs recs) /\
    d' !! "recommendations" = Some (PStrs recs') /\
    total <= total' /\
    (phq9_rank severity <= phq9_rank severity')%nat /\
    (urgent_advisory ∈ recs -> urgent_advisory ∈ recs').
Proof.
  intros Hlen Hle.
  assert (Hlen' : length rs' = 9%nat)
    by (rewrite <- (Forall2_length _ _ _ Hle); exact Hlen).
  pose proof (py_sum_monotone rs rs' Hle) as Hsum.
  eexists _, _, (py_sum rs), (py_sum rs'), _, _, _, _.
  split; [apply analyze_phq9_accepts, Hlen |].
  split; [apply analyze_phq9_accepts, Hlen' |].
  do 6 (split; [reflexivity |]).
  split; [exact Hsum |].
  split; [apply phq9_severity_monotone, Hsum |].
  rewrite !phq9_recommendations_shape.
  destruct (Z.leb_spec 15 (py_sum rs)) as [H15 | H15].
  - destruct (Z.leb_spec 15 (py_sum rs')); [| lia].
    intros _. apply elem_of_cons. by left.
  - intros Hin. exfalso. exact (urgent_not_in_base _ Hin).
Qed.

(** X18: for nine answers, whatever their values, the recommendations are
    decided by the total alone and are one of four lists: those of
    Minimal up to 4, of Mild up to 9, of Moderate up to 14, and from 15 on
    the urgent advisory followed by the list shared by Moderately Severe
    and Severe. *)
Theorem analyze_phq9_recommendations (rs : list Z) :
  length rs = 9%nat ->
  exists d,
    analyze_phq9 rs = Ok d /\
    d !! "max_score" = Some (PInt 27) /\
    d !! "recommendations" =
      Some (PStrs
              (if py_sum rs <=? 4 then phq9_minimal
               else if py_sum rs <=? 9 then phq9_mild
               else if py_sum rs <=? 14 then phq9_moderate
               else urgent_advisory :: phq9_severe)).
Proof.
  intros Hlen. eexists. split; [apply analyze_phq9_accepts, Hlen |].
  split; [reflexivity |].
  rewrite phq9_recommendations_shape. unfold phq9_severity.
  destruct (Z.leb_spec (py_sum rs) 4), (Z.leb_spec (py_sum rs) 9),
    (Z.leb_spec (py_sum rs) 14), (Z.leb_spec (py_sum rs) 19),
    (Z.leb_spec 15 (py_sum rs)); try lia; reflexivity.
Qed.

(** ** The routes *)

Lemma fallback_severity_range (vs : VaderScores) :
  fallback_severity vs
  ∈ ["Minimal"; "Mild"; "Moderate"; "Severe"; "Unknown"].
Proof.
  unfold fallback_severity.
  destruct (_ || _); [mem_literal |]. destruct (_ || _); mem_literal.
Qed.

(** What a caller can read in the result for a text that is long enough. *)
Lemma analyze_journal_text_fields (py_lower : pystr -> pystr)
  (svc : MLService) (text : pystr) :
  long_enough text ->
  exists d tr vs label confidence,
    analyze_journal_text py_lower svc text = (Ok d, tr) /\
    d !! "error" = None /\
    d !! "word_count" = Some (PInt (Z.of_nat (length (split text)))) /\
    d !! "vader_scores" = Some (PScores vs) /\
    d !! "predicted_severity" = Some (PStr label) /\
    label ∈ ["Minimal"; "Mild"; "Moderate"; "Severe"; "Unknown"] /\
    d !! "confidence" = Some (PFloat confidence) /\
    ((d !! "bert_embedding" = None /\ d !! "ml_prediction" = None) \/
     (exists embedding prediction,
        d !! "bert_embedding" = Some (PFloats embedding) /\
        d !! "ml_prediction" = Some (PInt prediction))).
Proof.
  intros Hlong.
  destruct (analyze_journal_text_cases py_lower svc text Hlong)
    as (vs & tr_v & d & tr & n & _ & Hrun & _ &
        [(-> & _) | [(msg & _ & _ & -> & _) | (emb & p & c & _ & _ & ->)]]).
  - eexists _, _, vs, (fallback_severity vs), _. split; [exact Hrun |].
    do 4 (split; [reflexivity |]).
    split; [apply fallback_severity_range |].
    split; [reflexivity |]. left. split; reflexivity.
  - eexists _, _, vs, (fallback_severity vs), _. split; [exact Hrun |].
    do 4 (split; [reflexivity |]).
    split; [apply fallback_severity_range |].
    split; [reflexivity |]. left. split; reflexivity.
  - eexists _, _, vs, (predicted_label p), c. split; [exact Hrun |].
    do 4 (split; [reflexivity |]).
    split; [apply predicted_label_range |].
    split; [reflexivity |]. right. exists emb, p. split; reflexivity.
Qed.

Lemma nine_answers (answers : list Z) :
  length answers = 9%nat ->
  exists r0 r1 r2 r3 r4 r5 r6 r7 r8,
    answers = [r0; r1; r2; r3; r4; r5; r6; r7; r8].
Proof.
  intros H.
  destruct answers as [|r0 [|r1 [|r2 [|r3 [|r4 [|r5 [|r6 [|r7 [|r8 [|r9 l]]]]]]]]]];
    try discriminate H.
  exists r0, r1, r2, r3, r4, r5, r6, r7, r8. reflexivity.
Qed.

(** Case analysis on every call that may raise in the goal. *)
Ltac each_call :=
  cbv beta iota;
  repeat (match goal with
          | |- context [match ?x with Ok _ => _ | Raise _ => _ end] =>
              destruct x
          end; cbv beta iota).

Section RouteProofs.

Variable py_lower : pystr -> pystr.
Variable py_int : pystr -> result Z.
Variable json_dumps : pyval -> result string.
Variable svc : MLService.
Variable commit_assessment : PHQ9Assessment -> result unit.
Variable commit_entry : JournalEntry -> result unit.
Variable flash : flash_message -> result unit.
Variable redirect : result unit.
Variable render_template : page -> result unit.

Lemma collect_responses_some (form : gmap string pystr)
  (questions : list nat) (acc responses : list Z) :
  collect_responses py_int form questions acc = Ok (Some responses) ->
  exists answers,
    responses = acc ++ answers /\
    Forall2 (form_answer py_int form) questions answers.
Proof.
  revert acc. induction questions as [|i questions IH]; intros acc; simpl.
  - intros [= <-]. exists []. rewrite app_nil_r. split; [reflexivity | constructor].
  - destruct (form !! ("q" +:+ pretty i)) as [response |] eqn:Hf;
      [| discriminate].
    destruct (py_int response) as [answer | e] eqn:Hi; [| discriminate].
    intros H. destruct (IH _ H) as (answers & -> & Hall).
    exists (answer :: answers). rewrite <- app_assoc. split; [reflexivity |].
    constructor; [| exact Hall]. exists response. auto.
Qed.

Lemma collect_responses_none (form : gmap string pystr)
  (questions : list nat) (acc : list Z) :
  collect_responses py_int form questions acc = Ok None ->
  exists i, i ∈ questions /\ form !! ("q" +:+ pretty i) = None.
Proof.
  revert acc. induction questions as [|i questions IH]; intros acc; simpl.
  - discriminate.
  - destruct (form !! ("q" +:+ pretty i)) as [response |] eqn:Hf.
    + destruct (py_int response) as [answer | e]; [| discriminate].
      intros H. destruct (IH _ H) as (j & Hin & Hmiss).
      exists j. split; [apply elem_of_cons; right; exact Hin | exact Hmiss].
    + intros _. exists i. split; [apply elem_of_cons; left; reflexivity | exact Hf].
Qed.

Lemma collect_responses_parses (form : gmap string pystr)
  (questions : list nat) (acc : list Z) :
  (forall (i : nat) response,
     form !! ("q" +:+ pretty i) = Some response ->
     is_ok (py_int response) = true) ->
  collect_responses py_int form questions acc = Ok None \/
  exists answers,
    length answers = length questions /\
    collect_responses py_int form questions acc = Ok (Some (acc ++ answers)).
Proof.
  intros Hparse. revert acc.
  induction questions as [|i questions IH]; intros acc; simpl.
  - right. exists []. rewrite app_nil_r. auto.
  - destruct (form !! ("q" +:+ pretty i)) as [response |] eqn:Hf;
      [| left; reflexivity].
    pose proof (Hparse i response Hf) as Hok.
    destruct (py_int response) as [answer | e]; [| discriminate Hok].
    destruct (IH (acc ++ [answer])) as [Hnone | (answers & Hlen & Hsome)];
      [left; exact Hnone |].
    right. exists (answer :: answers). simpl. rewrite Hlen.
    split; [reflexivity |]. rewrite Hsome, <- app_assoc. reflexivity.
Qed.




(** X20: [phq9_assessment] never lets the length check of [analyze_phq9]
    fail: when every answer present in the form parses as an integer, and
    neither the commit nor [flash], [redirect] and [render_template]
    raise, the route answers that an answer is missing, exactly when one
    of q0..q8 is absent, or saves the row; it never takes its [except]
    branch and logs no error. *)
Theorem phq9_assessment_never_fails_on_integers (post : bool)
  (user_id : string) (form : gmap string pystr) :
  (forall (i : nat) response,
     form !! ("q" +:+ pretty i) = Some response ->
     is_ok (py_int response) = true) ->
  (forall a, is_ok (commit_assessment a) = true) ->
  (forall m, is_ok (flash m) = true) ->
  is_ok redirect = true ->
  (forall p, is_ok (render_template p) = true) ->
  exists response,
    phq9_assessment py_int commit_assessment flash redirect render_template
      post user_id form
      = (Ok response, []) /\
    response <> Phq9Failed /\
    (response = Phq9Missing <->
     post = true /\
     exists i, (i < 9)%nat /\ form !! ("q" +:+ pretty i) = None).
Proof.
  intros Hparse Hcommit Hflash Hredirect Hrender. unfold phq9_assessment.
  assert (Hf : forall m, flash m = Ok tt).
  { intros m. specialize (Hflash m).
    destruct (flash m) as [[] | ?]; [reflexivity | discriminate Hflash]. }
  assert (Hr : redirect = Ok tt)
    by (destruct redirect as [[] | ?]; [reflexivity | discriminate Hredirect]).
  assert (Hp : forall p, render_template p = Ok tt).
  { intros p. specialize (Hrender p).
    destruct (render_template p) as [[] | ?];
      [reflexivity | discriminate Hrender]. }
  assert (Hc : forall a, commit_assessment a = Ok tt).
  { intros a. specialize (Hcommit a).
    destruct (commit_assessment a) as [[] | ?];
      [reflexivity | discriminate Hcommit]. }
  destruct post.
  2:{ exists Phq9Redirect. unfold bind, external, ret. rewrite Hr.
      split; [reflexivity |]. split; [discriminate |].
      split; [discriminate | intros [H _]; discriminate H]. }
  destruct (collect_responses_parses form (seq 0 9) [] Hparse)
    as [Hnone | (answers & Hlen & Hsome)].
  - rewrite Hnone. exists Phq9Missing.
    unfold try_except, bind, external, ret. rewrite Hf, Hr.
    split; [reflexivity |].
    split; [discriminate |]. split; [| reflexivity]. intros _.
    split; [reflexivity |].
    destruct (collect_responses_none _ _ _ Hnone) as (i & Hin & Hmiss).
    exists i. split; [| exact Hmiss]. apply elem_of_seq in Hin. lia.
  - rewrite Hsome. simpl app. simpl in Hlen.
    destruct (nine_answers answers Hlen)
      as (r0 & r1 & r2 & r3 & r4 & r5 & r6 & r7 & r8 & ->).
    rewrite (analyze_phq9_accepts [r0; r1; r2; r3; r4; r5; r6; r7; r8] eq_refl).
    cbv beta iota.
    match goal with
    | |- context [py_dict ?l !! "total_score"] =>
        replace (py_dict l !! "total_score")
          with (Some (PInt (py_sum [r0; r1; r2; r3; r4; r5; r6; r7; r8])))
          by reflexivity;
        replace (py_dict l !! "severity")
          with (Some (PStr (phq9_severity
                              (py_sum [r0; r1; r2; r3; r4; r5; r6; r7; r8])).1))
          by reflexivity
    end.
    cbv beta iota.
    unfold try_except, bind, external, ret. rewrite Hc, Hf, Hp.
    eexists. split; [reflexivity |]. split; [discriminate |].
    split; [discriminate |].
    intros [_ (i & Hi & Hmiss)]. exfalso.
    destruct (collect_responses_some _ _ _ _ Hsome) as (answers' & _ & Hall).
    assert (Hq : exists answer, form_answer py_int form i answer).
    { clear -Hall Hi.
      assert (Hin : i ∈ seq 0 9) by (apply elem_of_seq; lia).
      apply list_elem_of_lookup in Hin as [k Hk].
      destruct (Forall2_lookup_l _ _ _ _ _ Hall Hk) as (answer & _ & H).
      exists answer. exact H. }
    destruct Hq as (answer & response & Hf' & _). congruence.
Qed.

Lemma stripped_long_enough (text : pystr) :
  (length (strip text) <? 20)%nat = false -> long_enough (strip text).
Proof.
  intros H. apply Nat.ltb_ge in H. unfold long_enough.
  rewrite strip_idem. lia.
Qed.

(** X21: the branch of [journal_analysis] for an ["error"] in the analysis
    result is unreachable: a text the route accepts (20 characters once
    stripped) always passes the 10-character check of
    [analyze_journal_text], whose result then has no ["error"], so the
    route never answers with the analysis error; and for a shorter text no
    model is called, whatever [flash] and [redirect] do. *)
Theorem journal_analysis_error_branch_unreachable (post : bool)
  (user_id : string) (form : gmap string pystr) :
  let journal_text := strip (default [] (form !! "journal_text")) in
  ((20 <= length journal_text)%nat ->
   exists d tr,
     analyze_journal_text py_lower svc journal_text = (Ok d, tr) /\
     d !! "error" = None) /\
  (forall r tr,
     journal_analysis py_lower json_dumps svc commit_entry flash redirect
       render_template post user_id form = (r, tr) ->
     (forall msg, r <> Ok (JournalAnalysisError msg)) /\
     ((length journal_text < 20)%nat ->
      Forall (fun e => is_model_call e = false) tr)).
Proof.
  intros journal_text. split.
  - intros Hlen.
    assert (Hlong : long_enough journal_text)
      by (apply stripped_long_enough, Nat.ltb_ge, Hlen).
    destruct (analyze_journal_text_fields py_lower svc journal_text Hlong)
      as (d & tr & _ & _ & _ & Hrun & Herr & _).
    exists d, tr. auto.
  - intros r tr. unfold journal_analysis. fold journal_text.
    destruct post.
    2:{ unfold bind, external, ret. each_call; intros [= <- <-];
          (split; [discriminate | constructor]). }
    destruct (length journal_text <? 20)%nat eqn:Hlen.
    { unfold try_except, bind, external, log_error, ret. each_call;
        intros [= <- <-]; (split; [discriminate | repeat constructor]). }
    assert (Hge : ~ (length journal_text < 20)%nat)
      by (apply Nat.ltb_ge in Hlen; lia).
    destruct (analyze_journal_text_fields py_lower svc journal_text
                (stripped_long_enough _ Hlen))
      as (d & tr0 & vs & label & c & Hrun & Herr & Hwc & Hvs & _ & _ & _ & Hemb).
    unfold bind at 1. rewrite Hrun, Herr, Hwc, Hvs.
    intros Hroute. split; [| intros H; contradiction].
    revert Hroute.
    destruct Hemb as [(-> & _) | (emb & p & -> & _)];
      unfold try_except, bind, external, log_error, ret; each_call;
      intros [= <- <-]; discriminate.
Qed.


End RouteProofs.
(** * Instances of the further properties *)

Lemma preprocess_text_words_witness :
  text_of "  Hello   World " <> [] /\
  split (preprocess_text ascii_lower (text_of "  Hello   World "))
    = [text_of "hello"; text_of "world"].
Proof.
  assert (H : text_of "  Hello   World " <> []) by discriminate.
  split; [exact H |].
  exact (proj2 (preprocess_text_words ascii_lower _) H).
Defined.

Lemma preprocess_text_idempotent_witness :
  ascii_lower (preprocess_text ascii_lower (text_of "  Hello   World "))
    = preprocess_text ascii_lower (text_of "  Hello   World ") /\
  preprocess_text ascii_lower
    (preprocess_text ascii_lower (text_of "  Hello   World "))
    = text_of "hello world".
Proof.
  assert (H : ascii_lower
                (preprocess_text ascii_lower (text_of "  Hello   World "))
              = preprocess_text ascii_lower (text_of "  Hello   World "))
    by reflexivity.
  split; [exact H |].
  exact (preprocess_text_idempotent ascii_lower _ H).
Defined.

Lemma analyze_journal_text_counts_witness :
  long_enough sample_text /\
  exists d tr,
    analyze_journal_text ascii_lower svc_full sample_text = (Ok d, tr) /\
    d !! "text_length" = Some (PInt 31) /\
    d !! "word_count" = Some (PInt 6).
Proof.
  assert (Hlong : long_enough sample_text)
    by (unfold long_enough; vm_compute; lia).
  split; [exact Hlong |].
  destruct (analyze_journal_text_counts ascii_lower svc_full sample_text
              Hlong) as (d & tr & Hrun & Hlen & Hwords & _).
  exists d, tr. split; [exact Hrun |]. split; [exact Hlen | exact Hwords].
Defined.

Lemma rule_based_never_severe_witness :
  rule_based_result
    (py_update (initial_results sample_text sample_scores)
       (_fallback_analysis sample_scores)) /\
  exists severity,
    py_update (initial_results sample_text sample_scores)
      (_fallback_analysis sample_scores) !! "predicted_severity"
      = Some (PStr severity) /\
    severity ∈ ["Minimal"; "Mild"; "Moderate"].
Proof.
  assert (H : rule_based_result
                (py_update (initial_results sample_text sample_scores)
                   (_fallback_analysis sample_scores))).
  { split; [reflexivity |]. split; [reflexivity |].
    exists sample_scores. repeat split; reflexivity. }
  split; [exact H |].
  destruct (rule_based_never_severe _ H) as (severity & recs & Hs & Hin & _).
  exists severity. split; [exact Hs | exact Hin].
Defined.

Lemma fallback_label_and_advisory_witness :
  fle 0.4%float (negative sample_scores) /\
  fallback_severity sample_scores = "Moderate" /\
  challenge_advisory
    ∈ _get_journal_recommendations (fallback_severity sample_scores)
        sample_scores.
Proof.
  assert (H : fle 0.4%float (negative sample_scores)) by reflexivity.
  split; [exact H |].
  exact (proj1 (fallback_label_and_advisory sample_scores) H).
Defined.

Lemma ml_path_feature_fusion_witness :
  exists d tr,
    analyze_journal_text ascii_lower svc_full sample_text = (Ok d, tr) /\
    stages tr = [0; 1; 2; 3; 4; 5]%nat /\
    d !! "predicted_severity" = Some (PStr "Moderate") /\
    d !! "confidence" = Some (PFloat 0.9%float) /\
    d !! "method" = None.
Proof.
  assert (Hlong : long_enough sample_text)
    by (unfold long_enough; vm_compute; lia).
  destruct (ml_path_feature_fusion ascii_lower svc_full sample_text
              sample_scores
              [CallPolarityScores (preprocess_text ascii_lower sample_text)]
              sample_bert sample_tokenizer sample_scaler sample_classifier
              (map Z.of_N (preprocess_text ascii_lower sample_text))
              [0.25%float; (-1.5)%float]
              ([0.25%float; (-1.5)%float]
               ++ [0.05%float; 0.45%float; 0.5%float; (-0.6)%float])
              2 0.9%float
              Hlong eq_refl eq_refl eq_refl eq_refl eq_refl eq_refl eq_refl
              eq_refl eq_refl eq_refl eq_refl)
    as (d & Hrun & _ & Hsev & Hconf & _ & _ & _ & Hmethod).
  eexists d, _. split; [exact Hrun |]. split; [reflexivity |].
  split; [exact Hsev |]. split; [exact Hconf | exact Hmethod].
Defined.

Lemma no_analyzer_always_minimal_witness :
  vader_analyzer svc_nothing = None /\
  model_loaded svc_nothing = false /\
  long_enough sample_text /\
  exists d,
    analyze_journal_text ascii_lower svc_nothing sample_text = (Ok d, []) /\
    d !! "predicted_severity" = Some (PStr "Minimal").
Proof.
  assert (Hlong : long_enough sample_text)
    by (unfold long_enough; vm_compute; lia).
  split; [reflexivity |]. split; [reflexivity |]. split; [exact Hlong |].
  destruct (no_analyzer_always_minimal ascii_lower svc_nothing sample_text
              eq_refl eq_refl Hlong) as (d & Hrun & Hsev & _).
  exists d. split; [exact Hrun | exact Hsev].
Defined.

Lemma bert_load_failure_stops_loading_witness :
  ml_libraries env_encoder_fails = true /\
  bert_dir_exists env_encoder_fails = true /\
  is_ok (bert_from_pretrained env_encoder_fails) = false /\
  model_loaded (MLService_init env_encoder_fails) = false /\
  vader_analyzer (MLService_init env_encoder_fails) = None.
Proof.
  split; [reflexivity |]. split; [reflexivity |]. split; [reflexivity |].
  destruct (bert_load_failure_stops_loading env_encoder_fails
              eq_refl eq_refl (or_intror eq_refl))
    as (Hloaded & _ & Hvader & _).
  split; [exact Hloaded | exact Hvader].
Defined.

Lemma analyze_phq9_order_irrelevant_witness :
  Permutation [3; 0; 1; 2; 0; 0; 1; 0; 2] [0; 3; 1; 2; 0; 0; 1; 0; 2] /\
  analyze_phq9 [3; 0; 1; 2; 0; 0; 1; 0; 2]
    = analyze_phq9 [0; 3; 1; 2; 0; 0; 1; 0; 2].
Proof.
  assert (H : Permutation [3; 0; 1; 2; 0; 0; 1; 0; 2]
                          [0; 3; 1; 2; 0; 0; 1; 0; 2])
    by apply perm_swap.
  split; [exact H |].
  exact (analyze_phq9_order_irrelevant _ _ H).
Defined.

Lemma analyze_phq9_monotone_witness :
  length [1; 1; 1; 1; 1; 1; 1; 1; 1] = 9%nat /\
  Forall2 Z.le [1; 1; 1; 1; 1; 1; 1; 1; 1] [3; 3; 3; 3; 2; 2; 1; 1; 1] /\
  exists d d' severity severity',
    analyze_phq9 [1; 1; 1; 1; 1; 1; 1; 1; 1] = Ok d /\
    analyze_phq9 [3; 3; 3; 3; 2; 2; 1; 1; 1] = Ok d' /\
    d !! "severity" = Some (PStr severity) /\
    d' !! "severity" = Some (PStr severity') /\
    (phq9_rank severity <= phq9_rank severity')%nat.
Proof.
  assert (H : Forall2 Z.le [1; 1; 1; 1; 1; 1; 1; 1; 1]
                           [3; 3; 3; 3; 2; 2; 1; 1; 1])
    by (repeat constructor; lia).
  split; [reflexivity |]. split; [exact H |].
  destruct (analyze_phq9_monotone [1; 1; 1; 1; 1; 1; 1; 1; 1]
              [3; 3; 3; 3; 2; 2; 1; 1; 1] eq_refl H)
    as (d & d' & t & t' & s & s' & r & r' & H1 & H2 & _ & _ & H3 & H4 & _ & _
        & _ & Hrank & _).
  exists d, d', s, s'. auto.
Defined.

Lemma analyze_phq9_recommendations_witness :
  length [3; 3; 3; 3; 2; 2; 1; 0; 1] = 9%nat /\
  exists d,
    analyze_phq9 [3; 3; 3; 3; 2; 2; 1; 0; 1] = Ok d /\
    d !! "recommendations" = Some (PStrs (urgent_advisory :: phq9_severe)).
Proof.
  split; [reflexivity |].
  destruct (analyze_phq9_recommendations [3; 3; 3; 3; 2; 2; 1; 0; 1] eq_refl)
    as (d & Hrun & _ & Hrecs).
  exists d. split; [exact Hrun | exact Hrecs].
Defined.


Lemma phq9_assessment_never_fails_on_integers_witness :
  (forall (i : nat) (response : pystr),
     sample_phq9_form !! ("q" +:+ pretty i) = Some response ->
     is_ok ((fun _ => Ok 1) response : result Z) = true) /\
  (forall m, is_ok (flash_ok m) = true) /\
  is_ok redirect_ok = true /\
  (forall p, is_ok (render_template_ok p) = true) /\
  exists response,
    phq9_assessment (fun _ => Ok 1) commit_assessment_ok flash_ok
      redirect_ok render_template_ok true "user-1" sample_phq9_form
      = (Ok response, []) /\
    response <> Phq9Failed.
Proof.
  assert (H : forall (i : nat) (response : pystr),
            sample_phq9_form !! ("q" +:+ pretty i) = Some response ->
            is_ok ((fun _ => Ok 1) response : result Z) = true)
    by reflexivity.
  split; [exact H |]. split; [reflexivity |]. split; [reflexivity |].
  split; [reflexivity |].
  destruct (phq9_assessment_never_fails_on_integers (fun _ => Ok 1)
              commit_assessment_ok flash_ok redirect_ok render_template_ok
              true "user-1" sample_phq9_form H
              (fun _ => eq_refl) (fun _ => eq_refl) eq_refl
              (fun _ => eq_refl)) as (response & Hrun & Hne & _).
  exists response. split; [exact Hrun | exact Hne].
Defined.

Lemma journal_analysis_error_branch_unreachable_witness :
  (20 <= length (strip (default [] (sample_journal_form !! "journal_text"))))%nat
  /\
  exists d tr,
    analyze_journal_text ascii_lower svc_full
      (strip (default [] (sample_journal_form !! "journal_text")))
      = (Ok d, tr) /\
    d !! "error" = None.
Proof.
  assert (H : (20 <= length (strip (default []
                         (sample_journal_form !! "journal_text"))))%nat)
    by (vm_compute; lia).
  split; [exact H |].
  exact (proj1 (journal_analysis_error_branch_unreachable ascii_lower
                  sample_json_dumps svc_full commit_entry_ok flash_ok
                  redirect_ok render_template_ok true "user-1"
                  sample_journal_form) H).
Defined.

